(** * Self-service printer installer: a shallow embedding and its properties

    The development follows [source/printer-installer.source.py] (Python 2).
    Python values are embedded as an inductive type with the dynamic checks
    written out, the subprocess and file-system calls go through an abstract
    world, and every function of the script is a computation in a small
    state-and-exception monad that records what the script logs and which
    processes it launches. *)

From Stdlib Require Import ZArith Ascii String List Bool Lia Sorted.
From stdpp Require Import base option list gmap strings fin_maps pretty.

Local Open Scope string_scope.
Local Open Scope list_scope.

(** ** Python strings *)

Module PyStr.

Definition LF : ascii := ascii_of_nat 10.
Definition CR : ascii := ascii_of_nat 13.
Definition TAB : ascii := ascii_of_nat 9.

(** [str.isspace] on an 8-bit string: codes 9 to 13, and the blank. *)
Definition is_space (c : ascii) : bool :=
  let n := nat_of_ascii c in
  ((9 <=? n)%nat && (n <=? 13)%nat) || (n =? 32)%nat.

Definition is_empty (s : string) : bool :=
  match s with EmptyString => true | String _ _ => false end.

Definition snoc (s : string) (c : ascii) : string := s ++ String c EmptyString.

(** [needle in hay] for two strings. *)
Fixpoint contains (needle hay : string) : bool :=
  String.prefix needle hay ||
  match hay with
  | EmptyString => false
  | String _ rest => contains needle rest
  end.

(** [s.startswith(p)] *)
Definition startswith (s p : string) : bool := String.prefix p s.

(** [s.splitlines()] on an 8-bit string: a line ends at LF, CR or CR LF;
    no empty last line is produced. [cur] is the line read so far. *)
Fixpoint splitlines_from (cur s : string) : list string :=
  match s with
  | EmptyString => if is_empty cur then [] else [cur]
  | String c rest =>
      if Ascii.eqb c LF then cur :: splitlines_from EmptyString rest
      else if Ascii.eqb c CR then
        match rest with
        | String c' rest' =>
            if Ascii.eqb c' LF then cur :: splitlines_from EmptyString rest'
            else cur :: splitlines_from EmptyString rest
        | EmptyString => cur :: splitlines_from EmptyString rest
        end
      else splitlines_from (snoc cur c) rest
  end.

Definition splitlines (s : string) : list string := splitlines_from EmptyString s.

(** [s.split()]: the maximal runs of non-blank characters. *)
Fixpoint split_from (cur s : string) : list string :=
  match s with
  | EmptyString => if is_empty cur then [] else [cur]
  | String c rest =>
      if is_space c
      then (if is_empty cur then split_from EmptyString rest
            else cur :: split_from EmptyString rest)
      else split_from (snoc cur c) rest
  end.

Definition split (s : string) : list string := split_from EmptyString s.

(** [s.split(sep)] for a one-character separator: never the empty list. *)
Fixpoint split_on_from (sep : ascii) (cur s : string) : list string :=
  match s with
  | EmptyString => [cur]
  | String c rest =>
      if Ascii.eqb c sep then cur :: split_on_from sep EmptyString rest
      else split_on_from sep (snoc cur c) rest
  end.

Definition split_on (sep : ascii) (s : string) : list string :=
  split_on_from sep EmptyString s.

Fixpoint lstrip (s : string) : string :=
  match s with
  | String c rest => if is_space c then lstrip rest else s
  | EmptyString => EmptyString
  end.

Fixpoint rstrip (s : string) : string :=
  match s with
  | EmptyString => EmptyString
  | String c rest =>
      let r := rstrip rest in
      if is_empty r && is_space c then EmptyString else String c r
  end.

(** [s.strip()] *)
Definition strip (s : string) : string := rstrip (lstrip s).

(** [sep.join(l)] *)
Definition join (sep : string) (l : list string) : string := String.concat sep l.

(** Decimal text of an exit status, as [str(e.returncode)] gives it. *)
Definition str_of_Z (z : Z) : string := pretty z.

End PyStr.

(** ** Python values

    The catalog is what [json.loads] returns for the queue definitions: a
    dictionary of dictionaries.  An attribute of a queue is a string, [null]
    or, for [Options], a dictionary of strings; other JSON values do not occur
    in a catalog and are not modelled.  Text is a sequence of 8-bit
    characters: [str] and [unicode] are not told apart, as for ASCII text. *)

Inductive pyval : Type :=
| PNone
| PStr (s : string)
| PDict (d : gmap string string).

#[global] Instance pyval_eq_dec : EqDecision pyval.
Proof. solve_decision. Defined.

(** Truth value of an object in a condition. *)
Definition truthy (v : pyval) : bool :=
  match v with
  | PNone => false
  | PStr s => negb (PyStr.is_empty s)
  | PDict d => negb (bool_decide (d = ∅))
  end.

(** [v in l] for a list of strings [l]. *)
Definition py_in_list (v : pyval) (l : list string) : bool :=
  match v with
  | PStr s => bool_decide (s ∈ l)
  | _ => false
  end.

(** [d.get(k)] *)
Definition get (d : gmap string pyval) (k : string) : pyval :=
  default PNone (d !! k).

(** The first entry of [a], in key order, that [b] lacks or maps to another
    value: what CPython 2 looks at to order two dictionaries of one size. *)
Definition dict_characterize (a b : gmap string string) : option (string * string) :=
  foldr (fun kv acc =>
           if bool_decide (b !! kv.1 = Some kv.2) then acc
           else match acc with
                | None => Some kv
                | Some best => if String.ltb kv.1 best.1 then Some kv else acc
                end)
        None (map_to_list a).

Definition dict_cmp (a b : gmap string string) : comparison :=
  match Nat.compare (size a) (size b) with
  | Lt => Lt
  | Gt => Gt
  | Eq =>
      match dict_characterize a b, dict_characterize b a with
      | Some ka, Some kb =>
          match String.compare ka.1 kb.1 with
          | Eq => String.compare ka.2 kb.2
          | c => c
          end
      | _, _ => Eq
      end
  end.

(** Python 2 orders objects of different types: [None] first, then by type
    name, so a dictionary comes before a string. *)
Definition py_cmp (x y : pyval) : comparison :=
  match x, y with
  | PNone, PNone => Eq
  | PNone, _ => Lt
  | _, PNone => Gt
  | PDict a, PDict b => dict_cmp a b
  | PDict _, PStr _ => Lt
  | PStr _, PDict _ => Gt
  | PStr s, PStr t => String.compare s t
  end.

Definition py_le (x y : pyval) : bool :=
  match py_cmp x y with Gt => false | _ => true end.

Fixpoint insert_sorted (x : pyval) (l : list pyval) : list pyval :=
  match l with
  | [] => [x]
  | y :: l' => if py_le x y then x :: l else y :: insert_sorted x l'
  end.

(** [sorted(l)]: a stable sort. *)
Definition sorted (l : list pyval) : list pyval := foldr insert_sorted [] l.

(** ** Message templates

    The messages are configuration values pasted into the script when it is
    built.  Two of them are the left operand of [%] with one string on the
    right; such a template is kept in parsed form, literal text and [%s]
    conversions. *)

Inductive piece : Type :=
| Lit (text : string)
| ConvS.

Definition is_conv (p : piece) : bool :=
  match p with ConvS => true | Lit _ => false end.

Fixpoint render (t : list piece) (arg : string) : string :=
  match t with
  | [] => ""
  | Lit text :: t' => text +:+ render t' arg
  | ConvS :: t' => arg +:+ render t' arg
  end.

(** ** Exceptions and results *)

Inductive exn : Type :=
| SystemExit (code : option Z)
| OSError
| CalledProcessError (returncode : Z)
| IndexError
| KeyError (key : string)
| TypeError
| AttributeError.

Inductive res (A : Type) : Type :=
| Ret (a : A)
| Raise (e : exn).

Arguments Ret {A} a.
Arguments Raise {A} e.

(** [template % arg] with a single string argument: exactly one conversion
    must consume it. *)
Definition py_format (t : list piece) (arg : string) : res string :=
  if (length (filter (fun p => is_conv p = true) t) =? 1)%nat
  then Ret (render t arg)
  else Raise TypeError.

(** [needle in container], where [needle] is a string or [None]. *)
Definition py_in (needle : option string) (container : pyval) : res bool :=
  match container, needle with
  | PStr s, Some v => Ret (PyStr.contains v s)
  | PStr _, None => Raise TypeError
  | PDict d, Some v => Ret (bool_decide (is_Some (d !! v)))
  | PDict _, None => Ret false
  | PNone, _ => Raise TypeError
  end.

(** Exit status of the interpreter: [SystemExit] carries it ([None] is 0),
    a return from [main] is 0, an exception nobody caught is 1. *)
Definition exit_status {A} (r : res A) : Z :=
  match r with
  | Ret _ => 0
  | Raise (SystemExit None) => 0
  | Raise (SystemExit (Some n)) => n
  | Raise _ => 1
  end.

(** ** The host: processes and files *)

(** A process that ran to its end. *)
Record completed : Type := Completed { returncode : Z; stdout : string }.

(** What the script sees of the machine: whether a path exists, and what
    launching a command does.  [spawn] returns [None] when the program cannot
    be launched ([OSError] in Python), and otherwise the process as it ends;
    the world it returns is the machine after the command, so that a policy
    run may install files.  The progress bar is the one process the script
    does not wait for: it is launched, and later sent a signal. *)
Class Host : Type := {
  World : Type;
  path_exists : World -> string -> bool;
  spawn : World -> list string -> World * option completed
}.

(** ** Configuration *)

Class Config : Type := {
  gui_brand_icon : string;
  gui_printer_icon : string;
  gui_window_title : string;
  cocoaDialog_path : string;
  cocoaDialog_install_trigger : string;
  msg_error_undefined : string;
  msg_error_no_queues_available : string;
  msg_error_driver_failure : string;
  msg_error_unable_map_queue : string;
  msg_success_queue_added : list piece;
  msg_error_preselected_queue : list piece;
  ldap_server : string;
  ldap_search_base : string;
  ldap_group_name_format : string;
  ldap_msg_error : string;
  default_driver : string;
  QUEUE_DEFINITIONS : gmap string (gmap string pyval)
}.

(** ** Observable events *)

Inductive event : Type :=
| Log (message : string)
| Exec (argv : list string) (launched : bool)
| Terminate (argv : list string).

#[global] Instance event_eq_dec : EqDecision event.
Proof. solve_decision. Defined.

(** ** The monad of the script *)

Record state `{Host} : Type := State { world : World; trace : list event }.

Arguments State {_} world trace.

Definition M `{Host} (A : Type) : Type := state -> state * res A.

Definition ret `{Host} {A} (a : A) : M A := fun st => (st, Ret a).

Definition raise `{Host} {A} (e : exn) : M A := fun st => (st, Raise e).

Definition bind `{Host} {A B} (m : M A) (k : A -> M B) : M B :=
  fun st =>
    match m st with
    | (st', Ret a) => k a st'
    | (st', Raise e) => (st', Raise e)
    end.

Notation "x <- m ;; k" := (bind m (fun x => k))
  (at level 100, m at level 99, k at level 200, right associativity).
Notation "m ;;; k" := (bind m (fun _ => k))
  (at level 100, k at level 200, right associativity).

(** [try: body except ...: handler]; [handler e] is [None] for an exception
    the [except] clause does not name. *)
Definition try_except `{Host} {A} (body : M A) (handler : exn -> option (M A)) : M A :=
  fun st =>
    match body st with
    | (st', Ret a) => (st', Ret a)
    | (st', Raise e) =>
        match handler e with
        | Some h => h st'
        | None => (st', Raise e)
        end
    end.

Definition lift `{Host} {A} (r : res A) : M A := fun st => (st, r).

Definition emit `{Host} (e : event) : M unit :=
  fun st => (State (world st) (trace st ++ [e]), Ret tt).

(** [for x in l: body], with the variables the loop updates in [acc]. *)
Fixpoint for_each `{Host} {A S} (l : list A) (body : A -> S -> M S) (acc : S) : M S :=
  match l with
  | [] => ret acc
  | x :: l' => acc' <- body x acc ;; for_each l' body acc'
  end.

(** A string where Python needs one. *)
Definition as_str `{Host} (v : pyval) : M string :=
  match v with
  | PStr s => ret s
  | _ => raise TypeError
  end.

Fixpoint strs `{Host} (l : list pyval) : M (list string) :=
  match l with
  | [] => ret []
  | v :: l' => s <- as_str v ;; r <- strs l' ;; ret (s :: r)
  end.

(** [l[i]] *)
Definition getidx `{Host} {A} (l : list A) (i : nat) : M A :=
  match l !! i with
  | Some x => ret x
  | None => raise IndexError
  end.

(** [d[k]] *)
Definition getitem `{Host} {V} (d : gmap string V) (k : string) : M V :=
  match d !! k with
  | Some v => ret v
  | None => raise (KeyError k)
  end.

(** [quit()] *)
Definition quit `{Host} {A} : M A := raise (SystemExit None).

(** [sys.exit(code)] *)
Definition sys_exit `{Host} {A} (code : Z) : M A := raise (SystemExit (Some code)).

(** [os.path.exists(path)] *)
Definition os_path_exists `{Host} (path : string) : M bool :=
  fun st => (st, Ret (path_exists (world st) path)).

(** [subprocess.Popen(argv, ...)]: the launch is recorded, and fails with
    [OSError] when the program cannot be started. *)
Definition Popen `{Host} (argv : list string) : M completed :=
  fun st =>
    match spawn (world st) argv with
    | (w, Some p) => (State w (trace st ++ [Exec argv true]), Ret p)
    | (w, None) => (State w (trace st ++ [Exec argv false]), Raise OSError)
    end.

(** [p.communicate()]: the text the process wrote. *)
Definition communicate `{Host} (p : completed) : M string := ret (stdout p).

(** [subprocess.check_output(argv)] *)
Definition check_output `{Host} (argv : list string) : M string :=
  p <- Popen argv ;;
  if (returncode p =? 0)%Z then ret (stdout p)
  else raise (CalledProcessError (returncode p)).

(** [subprocess.call(argv)] *)
Definition subprocess_call `{Host} (argv : list string) : M Z :=
  p <- Popen argv ;;
  ret (returncode p).

(** ** The script *)

Section Script.
Context `{Host} `{Config}.

(** Path to Jamf binary *)
Definition JAMF : string := "/usr/local/bin/jamf".
Definition BRANDICON : string := gui_brand_icon.
Definition PRINTERICON : string := gui_printer_icon.
Definition CDPATH : string := cocoaDialog_path.

(** [Logger.log]: the message goes to the syslog and to stdout. *)
Definition Logger_log (message : string) : M unit := emit (Log message).

(** The command line of the message box. *)
Definition msgbox_argv (message_text heading : string) : list string :=
  [CDPATH; "ok-msgbox"; "--title"; gui_window_title; "--text"; heading;
   "--informative-text"; message_text; "--icon-file"; BRANDICON;
   "--float"; "--no-cancel"].

(** [show_message(message_text, heading)], source lines 82-92; callers that
    leave the heading out pass the default, the window title. *)
Definition show_message (message_text heading : string) : M bool :=
  showit <- Popen (msgbox_argv message_text heading) ;;
  _ <- communicate showit ;;
  ret true.

(** [error_and_exit], source lines 96-104. *)
Definition error_and_exit (no_cocoaDialog : bool) : M unit :=
  (if negb no_cocoaDialog
   then _ <- show_message msg_error_undefined "Error" ;; ret tt
   else ret tt) ;;;
  Logger_log "An error occurred which requires exiting this program." ;;;
  sys_exit 1.

Definition progressbar_argv : list string :=
  [CDPATH; "progressbar"; "--title"; "Please wait..."; "--text";
   "Installing software..."; "--float"; "--indeterminate"].

Definition jamf_argv (trigger : string) : list string :=
  [JAMF; "policy"; "-event"; trigger].

(** [run_jamf_policy], source lines 107-133: the two markers are tested in
    this order, and any other text is a failure. *)
Definition run_jamf_policy (trigger : string) (quiet : bool) : M bool :=
  (if negb quiet then _ <- Popen progressbar_argv ;; ret tt else ret tt) ;;;
  jamf_policy <- Popen (jamf_argv trigger) ;;
  policy_return <- communicate jamf_policy ;;
  (if negb quiet then emit (Terminate progressbar_argv) else ret tt) ;;;
  if PyStr.contains "No policies were found for the" policy_return then
    Logger_log ("Unable to run Jamf policy via trigger " +:+ trigger) ;;;
    ret false
  else if PyStr.contains "Submitting log to" policy_return then
    Logger_log ("Successfully ran Jamf policy via trigger " +:+ trigger) ;;;
    ret true
  else ret false.

(** [check_for_cocoadialog], source lines 135-143. *)
Definition check_for_cocoadialog : M bool :=
  there <- os_path_exists CDPATH ;;
  if negb there then run_jamf_policy cocoaDialog_install_trigger true
  else ret true.

Definition lpstat_argv : list string := ["/usr/bin/lpstat"; "-p"].

(** [get_currently_mapped_queues], source lines 146-160: only the call of
    [lpstat] is inside the [try]. *)
Definition get_currently_mapped_queues : M (list string) :=
  lpstat_result <-
    try_except
      (Logger_log "Gathering list of currently mappped queues" ;;;
       out <- check_output lpstat_argv ;;
       ret (Some out))
      (fun e => match e with
                | CalledProcessError _ =>
                    Some (Logger_log "No current print queues found" ;;; ret None)
                | _ => None
                end) ;;
  match lpstat_result with
  | Some out =>
      if negb (PyStr.is_empty out) then
        for_each (PyStr.splitlines out)
          (fun line current_queues =>
             name <- getidx (PyStr.split line) 1 ;;
             ret (current_queues ++ [name]))
          []
      else ret []
  | None => ret []
  end.

(** Truth value of a command-line argument: [None] and the empty string
    are false. *)
Definition given (a : option string) : bool :=
  match a with
  | Some s => negb (PyStr.is_empty s)
  | None => false
  end.

(** [queue.get(filter_key)]; [filter_key] is only looked up once it is known
    to be a non-empty string. *)
Definition get_arg (queue : gmap string pyval) (key : option string) : pyval :=
  match key with
  | Some k => get queue k
  | None => PNone
  end.

(** One turn of the loop of [build_printer_queue_list], source lines
    166-188: the display list is returned unchanged where the source says
    [continue]. *)
Definition consider_queue (current_queues : list string)
    (filter_key filter_value : option string) (user_groups : list string)
    (queue : gmap string pyval) (display_list : list pyval) : M (list pyval) :=
  if py_in_list (get queue "DisplayName") current_queues then ret display_list
  else if py_in_list (get queue "CUPSName") current_queues then ret display_list
  else
    skip_filter <-
      (if given filter_key && truthy (get_arg queue filter_key) then
         found <- lift (py_in filter_value (get_arg queue filter_key)) ;;
         ret (negb found)
       else ret false) ;;
    if skip_filter : bool then ret display_list
    else if truthy (get queue "ADFilterGroup")
            && negb (py_in_list (get queue "ADFilterGroup") user_groups)
    then ret display_list
    else ret (display_list ++ [get queue "DisplayName"]).

(** [QUEUE_DEFINITIONS.values()] *)
Definition catalog_values : list (gmap string pyval) :=
  (map_to_list QUEUE_DEFINITIONS).*2.

(** [build_printer_queue_list], source lines 163-195. *)
Definition build_printer_queue_list (current_queues : list string)
    (filter_key filter_value : option string) (user_groups : list string)
    : M (list pyval) :=
  display_list <-
    for_each catalog_values
      (consider_queue current_queues filter_key filter_value user_groups) [] ;;
  match display_list with
  | [] =>
      Logger_log "No currently-unmapped queues are available" ;;;
      _ <- show_message msg_error_no_queues_available gui_window_title ;;
      quit
  | _ :: _ => ret (sorted display_list)
  end.

(** [has_kerberos_ticket], source lines 198-200. *)
Definition has_kerberos_ticket : M bool :=
  rc <- subprocess_call ["klist"; "-s"] ;;
  ret (rc =? 0)%Z.

Definition ldapsearch_argv (search_filter attribute : string) : list string :=
  ["ldapsearch"; "-LLL"; "-o"; "ldif-wrap=no"; "-H"; ldap_server;
   "-b"; ldap_search_base; search_filter; attribute].

(** The loop that picks the user's distinguished name: the first line that
    starts with [dn: ], then [break]. *)
Fixpoint find_user_dn (dn : list string) (user_dn : string) : M string :=
  match dn with
  | [] => ret user_dn
  | attribute :: rest =>
      if PyStr.startswith attribute "dn: " then
        field <- getidx (PyStr.split_on ":" attribute) 1 ;;
        ret (PyStr.strip field)
      else find_user_dn rest user_dn
  end.

(** [user_ldap_groups], source lines 203-254: the search for the user is
    inside a [try], the search for the groups is not. *)
Definition user_ldap_groups (username : option string) : M (list string) :=
  Logger_log "Generating list of user's AD groups" ;;;
  ticket <- has_kerberos_ticket ;;
  if negb ticket then
    Logger_log "Kerberos ticket not found. AD group filtering disabled." ;;;
    ret []
  else
    dn <-
      try_except
        (name <- match username with
                 | Some u => ret u
                 | None => raise TypeError
                 end ;;
         out <- check_output
                  (ldapsearch_argv
                     ("(&(objectCategory=Person)(objectClass=User)(sAMAccountName="
                        +:+ name +:+ "))") "dn") ;;
         ret (PyStr.splitlines out))
        (fun e => match e with
                  | CalledProcessError rc =>
                      Some
                        ((if (rc =? 254)%Z then
                            Logger_log "Encountered an authentication error while searching ldap."
                          else
                            Logger_log ("Unknown error searching ldap. (Error code: "
                                          +:+ PyStr.str_of_Z rc +:+ ")")) ;;;
                         _ <- show_message ldap_msg_error gui_window_title ;;
                         quit)
                  | _ => None
                  end) ;;
    user_dn <- find_user_dn dn "" ;;
    let search_filter := "(member:1.2.840.113556.1.4.1941:=" +:+ user_dn +:+ ")" in
    let search_filter :=
      if negb (PyStr.is_empty ldap_group_name_format)
      then "(&" +:+ search_filter +:+ "(cn=" +:+ ldap_group_name_format +:+ "))"
      else search_filter in
    out <- check_output (ldapsearch_argv search_filter "cn") ;;
    for_each (PyStr.splitlines out)
      (fun attribute user_groups =>
         if PyStr.startswith attribute "cn: " then
           field <- getidx (PyStr.split_on ":" attribute) 1 ;;
           ret (user_groups ++ [PyStr.strip field])
         else ret user_groups)
      [].

Definition dropdown_argv (items : list string) : list string :=
  [CDPATH; "dropdown"; "--string-output"; "--float"; "--icon"; "gear";
   "--title"; "Select Print Queue";
   "--text"; "Choose a print queue to add to your computer:";
   "--button1"; "Add"; "--button2"; "Cancel"; "--items"] ++ items.

(** [prompt_queue], source lines 257-277; it returns the chosen name, or
    [False], here [None]. *)
Definition prompt_queue (list_of_queues : list pyval) : M (option string) :=
  Logger_log "Prompting user to select desired queue" ;;;
  items <- strs list_of_queues ;;
  queue_dialog <- Popen (dropdown_argv items) ;;
  prompt_return <- communicate queue_dialog ;;
  if negb (String.eqb prompt_return ("Cancel" +:+ String PyStr.LF "")) then
    selected_queue <- getidx (PyStr.splitlines prompt_return) 1 ;;
    Logger_log ("User selected queue " +:+ selected_queue) ;;;
    ret (Some selected_queue)
  else
    Logger_log "User canceled queue selection" ;;;
    ret None.

(** [install_drivers], source lines 280-287. *)
Definition install_drivers (trigger : pyval) : M bool :=
  t <- as_str trigger ;;
  Logger_log ("Attempting to install drivers via policy trigger " +:+ t) ;;;
  ok <- run_jamf_policy t false ;;
  if negb ok then ret false else ret true.

(** [search_for_driver], source lines 290-298. *)
Definition search_for_driver (driver trigger : pyval) : M unit :=
  path <- as_str driver ;;
  there <- os_path_exists path ;;
  if negb there then
    Logger_log ("The driver was not found at " +:+ path) ;;;
    ok <- install_drivers trigger ;;
    if negb ok then
      _ <- show_message msg_error_driver_failure gui_window_title ;;
      Logger_log "Quitting program" ;;;
      quit
    else ret tt
  else ret tt.

(** [q['Options'].iteritems()]: only a dictionary has the method. *)
Definition iteritems (v : pyval) : M (list (string * string)) :=
  match v with
  | PDict d => ret (map_to_list d)
  | _ => raise AttributeError
  end.

(** [add_queue], source lines 301-350: [Popen] is called before the [try],
    whose [except] clause names [CalledProcessError] only. *)
Definition add_queue (queue : string) : M unit :=
  q <- getitem QUEUE_DEFINITIONS queue ;;
  driver <- getitem q "Driver" ;;
  q_driver <-
    (if truthy driver then
       name <- getitem q "DisplayName" ;;
       n <- as_str name ;;
       Logger_log ("Queue " +:+ n +:+ " requires a vendor driver") ;;;
       d <- getitem q "Driver" ;;
       t <- getitem q "DriverTrigger" ;;
       search_for_driver d t ;;;
       getitem q "Driver"
     else
       name <- getitem q "DisplayName" ;;
       n <- as_str name ;;
       Logger_log (n +:+ " uses a generic driver") ;;;
       ret (PStr default_driver)) ;;
  display_name <- getitem q "DisplayName" ;;
  location <- getitem q "Location" ;;
  uri <- getitem q "URI" ;;
  let cmd := [PStr "/usr/sbin/lpadmin"; PStr "-p"; display_name;
              PStr "-L"; location; PStr "-E"; PStr "-v"; uri;
              PStr "-P"; q_driver] in
  opts <- getitem q "Options" ;;
  cmd <-
    (if truthy opts then
       items <- iteritems opts ;;
       ret (cmd ++ flat_map (fun kv => [PStr "-o"; PStr (kv.1 +:+ "=" +:+ kv.2)]) items)
     else ret cmd) ;;
  argv <- strs cmd ;;
  mapq <- Popen argv ;;
  try_except
    (_ <- communicate mapq ;;
     Logger_log ("Excuting command: " +:+ PyStr.join " " argv) ;;;
     name <- getitem q "DisplayName" ;;
     n <- as_str name ;;
     Logger_log ("Queue " +:+ n +:+ " successfully mapped") ;;;
     name <- getitem q "DisplayName" ;;
     n <- as_str name ;;
     text <- lift (py_format msg_success_queue_added n) ;;
     _ <- show_message text "Success!" ;;
     quit)
    (fun e => match e with
              | CalledProcessError _ =>
                  Some
                    (Logger_log "There was a problem mapping the queue!" ;;;
                     Logger_log ("Attempted command: " +:+ PyStr.join " " argv) ;;;
                     _ <- show_message msg_error_unable_map_queue gui_window_title ;;
                     quit)
              | _ => None
              end).

(** The arguments [argparse] hands to [main]: six optional positionals. *)
Record arguments : Type := Arguments_ {
  jamf_mount : option string;
  jamf_hostname : option string;
  jamf_user : option string;
  preselected_queue : option string;
  filter_key : option string;
  filter_value : option string
}.

(** [main], source lines 353-392. *)
Definition main (args : arguments) : M unit :=
  user_groups <- user_ldap_groups (jamf_user args) ;;
  currently_mapped_queues <- get_currently_mapped_queues ;;
  available_queues <-
    build_printer_queue_list currently_mapped_queues
      (filter_key args) (filter_value args) user_groups ;;
  selected_queue <-
    (if given (preselected_queue args) then
       match preselected_queue args with
       | Some p =>
           if bool_decide (PStr p ∈ available_queues) then ret (Some p)
           else
             text <- lift (py_format msg_error_preselected_queue p) ;;
             _ <- show_message text gui_window_title ;;
             error_and_exit false ;;;
             ret None
       | None => ret None
       end
     else
       ok <- check_for_cocoadialog ;;
       (if negb ok then error_and_exit false else ret tt) ;;;
       prompt_queue available_queues) ;;
  if given selected_queue then
    match selected_queue with
    | Some s => add_queue s
    | None => ret tt
    end
  else ret tt.

End Script.

(** ** Vocabulary of the statements *)

(** [py_le] as a relation, for [Sorted]. *)
Definition py_le_prop (x y : pyval) : Prop := py_le x y = true.


Section Vocabulary.
Context `{Host} `{Config}.

Definition display_name (q : gmap string pyval) : pyval := get q "DisplayName".


(** Whether the loop keeps a definition, as a value: the three outcomes of
    one turn are "appended", "skipped" and "raised". *)
Definition eligible (cur : list string) (fk fv : option string)
    (groups : list string) (q : gmap string pyval) : res bool :=
  if py_in_list (get q "DisplayName") cur then Ret false
  else if py_in_list (get q "CUPSName") cur then Ret false
  else
    match (if given fk && truthy (get_arg q fk)
           then py_in fv (get_arg q fk) else Ret true) with
    | Raise e => Raise e
    | Ret false => Ret false
    | Ret true =>
        Ret (negb (truthy (get q "ADFilterGroup")
                   && negb (py_in_list (get q "ADFilterGroup") groups)))
    end.

Definition kept (cur : list string) (fk fv : option string)
    (groups : list string) (q : gmap string pyval) : Prop :=
  eligible cur fk fv groups q = Ret true.

#[global] Instance kept_dec cur fk fv groups q : Decision (kept cur fk fv groups q).
Proof.
  unfold kept. destruct (eligible cur fk fv groups q) as [[|]|e].
  - left; reflexivity.
  - right; discriminate.
  - right; discriminate.
Defined.

Definition second_token (line : string) : string := nth 1 (PyStr.split line) "".

Definition append_second_token (line : string) (current_queues : list string)
    : M (list string) :=
  name <- getidx (PyStr.split line) 1 ;;
  ret (current_queues ++ [name]).


(** The dialog tool can be launched whenever the script asks for it. *)
Definition dialog_available : Prop :=
  forall w args, exists w' p, spawn w (CDPATH :: args) = (w', Some p).

(** The deployment agent runs the policy of [trigger] and prints [out]. *)
Definition policy_prints (trigger out : string) : Prop :=
  forall w, exists w' rc, spawn w (jamf_argv trigger) = (w', Some (Completed rc out)).

(** What a run of the policy leaves in the trace. *)
Definition policy_events (trigger : string) (quiet : bool) (out : string) : list event :=
  (if quiet then [] else [Exec progressbar_argv true])
  ++ [Exec (jamf_argv trigger) true]
  ++ (if quiet then [] else [Terminate progressbar_argv])
  ++ (if PyStr.contains "No policies were found for the" out
      then [Log ("Unable to run Jamf policy via trigger " +:+ trigger)]
      else if PyStr.contains "Submitting log to" out
           then [Log ("Successfully ran Jamf policy via trigger " +:+ trigger)]
           else []).

(** The registration command is the one that starts with [lpadmin -p]. *)
Definition is_registration (e : event) : bool :=
  match e with
  | Exec (prog :: flag :: _) _ =>
      String.eqb flag "-p" && String.eqb prog "/usr/sbin/lpadmin"
  | _ => false
  end.

Definition registration_attempted (evs : list event) : bool :=
  existsb is_registration evs.

(** The selection prompt is the dialog tool in [dropdown] mode. *)
Definition is_prompt (e : event) : bool :=
  match e with
  | Exec (_ :: mode :: _) _ => String.eqb mode "dropdown"
  | _ => false
  end.

Definition prompt_presented (evs : list event) : bool := existsb is_prompt evs.

Definition driver_failure_events (n d t : string) : list event :=
  [Log ("Queue " +:+ n +:+ " requires a vendor driver");
   Log ("The driver was not found at " +:+ d);
   Log ("Attempting to install drivers via policy trigger " +:+ t);
   Exec progressbar_argv true;
   Exec (jamf_argv t) true;
   Terminate progressbar_argv;
   Log ("Unable to run Jamf policy via trigger " +:+ t);
   Exec (msgbox_argv msg_error_driver_failure gui_window_title) true;
   Log "Quitting program"].

Definition invalid_preselection_events (p : string) : list event :=
  [Exec (msgbox_argv (render msg_error_preselected_queue p) gui_window_title) true;
   Exec (msgbox_argv msg_error_undefined "Error") true;
   Log "An error occurred which requires exiting this program."].

Definition klist_argv : list string := ["klist"; "-s"].

Definition user_search_argv (u : string) : list string :=
  ldapsearch_argv
    ("(&(objectCategory=Person)(objectClass=User)(sAMAccountName=" +:+ u +:+ "))") "dn".

Definition generic_lpadmin_argv (n l u : string) : list string :=
  ["/usr/sbin/lpadmin"; "-p"; n; "-L"; l; "-E"; "-v"; u; "-P"; default_driver].



End Vocabulary.

(** ** Scripted hosts and sample catalogs

    Concrete machines for evaluating the script: the world has no state,
    files are given by a predicate and every command line by a table. *)

Definition scripted (files : string -> bool)
    (script : list string -> option completed) : Host :=
  {| World := unit;
     path_exists := fun _ path => files path;
     spawn := fun _ argv => (tt, script argv) |}.

Definition sample_config (catalog : gmap string (gmap string pyval)) : Config :=
  {| gui_brand_icon := "/Library/Printers/brand.png";
     gui_printer_icon := "/Library/Printers/printer.png";
     gui_window_title := "Printer Installer";
     cocoaDialog_path := "/Applications/cocoaDialog.app/Contents/MacOS/cocoaDialog";
     cocoaDialog_install_trigger := "InstallcocoaDialog";
     msg_error_undefined := "An unexpected error occurred.";
     msg_error_no_queues_available := "No print queues are available.";
     msg_error_driver_failure := "The printer driver could not be installed.";
     msg_error_unable_map_queue := "The print queue could not be added.";
     msg_success_queue_added := [Lit "The queue "; ConvS; Lit " was added."];
     msg_error_preselected_queue := [Lit "The queue "; ConvS; Lit " is not available."];
     ldap_server := "ldap://dc.example.com";
     ldap_search_base := "DC=example,DC=com";
     ldap_group_name_format := "";
     ldap_msg_error := "Your group membership could not be checked.";
     default_driver := "/System/Library/Printers/generic.ppd";
     QUEUE_DEFINITIONS := catalog |}.

(** The script starts with an empty trace. *)
Definition start (h : Host) (w : @World h) : @state h := State w [].

Definition program (argv : list string) : string := hd "" argv.

Definition line (s : string) : string := s +:+ String PyStr.LF "".

(** Two queues, one with a vendor driver. *)
Definition hp_color : gmap string pyval :=
  {[ "DisplayName" := PStr "HP-Color";
     "URI" := PStr "lpd://print.example.com/color";
     "Location" := PStr "Building 1";
     "Driver" := PStr "/opt/drv/x.ppd";
     "DriverTrigger" := PStr "InstallHPDriver";
     "Options" := PDict {[ "Duplex" := "DuplexNoTumble" ]} ]}.

Definition hp_bw : gmap string pyval :=
  {[ "DisplayName" := PStr "HP-BW";
     "URI" := PStr "lpd://print.example.com/bw";
     "Location" := PStr "";
     "Driver" := PNone;
     "Options" := PNone ]}.

Definition office_catalog : gmap string (gmap string pyval) :=
  {[ "HP-Color" := hp_color; "HP-BW" := hp_bw ]}.

(** Two definitions under one DisplayName, the first with a CUPSName. *)
Definition twin_a : gmap string pyval :=
  {[ "DisplayName" := PStr "P"; "CUPSName" := PStr "x" ]}.

Definition twin_b : gmap string pyval := {[ "DisplayName" := PStr "P" ]}.

Definition twin_catalog : gmap string (gmap string pyval) :=
  {[ "a" := twin_a; "b" := twin_b ]}.

(** Every command can be launched, succeeds and prints nothing. *)
Definition quiet_host : Host :=
  scripted (fun _ => true) (fun _ => Some (Completed 0 "")).

(** No Kerberos ticket, and a policy runner that prints [out]; no file is
    present. *)
Definition policy_host (out : string) : Host :=
  scripted (fun _ => false)
    (fun argv =>
       if String.eqb (program argv) "klist" then Some (Completed 1 "")
       else if String.eqb (program argv) "/usr/local/bin/jamf" then Some (Completed 0 out)
       else Some (Completed 0 "")).

Definition both_markers : string :=
  "No policies were found for the InstallHPDriver trigger. Submitting log to https://jss.example.com".

Definition not_found_text : string :=
  line "Checking for policies triggered by InstallHPDriver..."
  +:+ line "No policies were found for the InstallHPDriver trigger.".

Definition submitted_text : string :=
  line "Executing Policy Install HP Driver"
  +:+ line "Submitting log to https://jss.example.com".

(** A ticket exists, the user is found, and the group search fails. *)
Definition directory_host : Host :=
  scripted (fun _ => true)
    (fun argv =>
       if String.eqb (program argv) "ldapsearch" then
         if String.eqb (List.last argv "") "dn"
         then Some (Completed 0 (line "dn: CN=jdoe,OU=Staff,DC=example,DC=com"))
         else Some (Completed 1 "")
       else Some (Completed 0 "")).

(** The registration command cannot be launched. *)
Definition no_lpadmin_host : Host :=
  scripted (fun _ => true)
    (fun argv =>
       if String.eqb (program argv) "/usr/sbin/lpadmin" then None
       else if String.eqb (program argv) "klist" then Some (Completed 1 "")
       else Some (Completed 0 "")).

(** The registration command is launched and exits with status [rc]; the
    prompt answers [answer]; [lpstat] prints [mapped]. *)
Definition desk_host (rc : Z) (answer mapped : string) : Host :=
  scripted (fun _ => true)
    (fun argv =>
       if String.eqb (program argv) "/usr/sbin/lpadmin" then Some (Completed rc "")
       else if String.eqb (program argv) "klist" then Some (Completed 1 "")
       else if String.eqb (program argv) "/usr/bin/lpstat" then Some (Completed 0 mapped)
       else if String.eqb (nth 1 argv "") "dropdown" then Some (Completed 0 answer)
       else Some (Completed 0 "")).

Definition no_arguments : arguments :=
  Arguments_ None None None None None None.

Definition preselect (name : string) : arguments :=
  Arguments_ (Some "/") (Some "mac01") (Some "jdoe") (Some name) None None.

(** A message box was shown. *)
Definition is_message_box (e : event) : bool :=
  match e with
  | Exec (_ :: mode :: _) true => String.eqb mode "ok-msgbox"
  | _ => false
  end.

Definition message_shown (evs : list event) : bool := existsb is_message_box evs.

(** [error_and_exit] was run: its log line is in the trace. *)
Definition error_exit_logged (evs : list event) : bool :=
  bool_decide (Log "An error occurred which requires exiting this program." ∈ evs).

(** A definition whose Location is the empty string. *)
Definition blank_location : gmap string pyval :=
  {[ "DisplayName" := PStr "A"; "Location" := PStr "" ]}.

Definition blank_catalog : gmap string (gmap string pyval) :=
  {[ "A" := blank_location ]}.

Definition lab : gmap string pyval :=
  {[ "DisplayName" := PStr "Lab"; "Location" := PStr "Building 1" ]}.

Definition attic : gmap string pyval :=
  {[ "DisplayName" := PStr "Attic"; "Location" := PStr "Building 2" ]}.

Definition campus_catalog : gmap string (gmap string pyval) :=
  {[ "Lab" := lab; "Attic" := attic; "A" := blank_location ]}.

(** The machines of the scenarios below. *)
Definition office : Config := sample_config office_catalog.

Definition not_found_host : Host := policy_host not_found_text.

Definition submitted_host : Host := policy_host submitted_text.

Definition both_markers_host : Host := policy_host both_markers.

Definition lpstat_text : string :=
  line "printer HP-BW is idle.  enabled since Mon Nov  2 09:12:44 2026"
  +:+ line "printer Lab disabled since Tue Nov  3 10:00:01 2026 -".

Definition paused_text : string :=
  line "printer HP-BW disabled since Tue Nov  3 10:00:01 2026 -"
  +:+ line (String PyStr.TAB "Paused").

(** No ticket; every other command succeeds and prints nothing. *)
Definition plain_host : Host := policy_host "".

(** The operator presses Cancel; nothing is installed yet. *)
Definition cancel_host : Host := desk_host 0 (line "Cancel") "".

(** The operator picks HP-BW; the registration command exits with 1. *)
Definition pick_host : Host := desk_host 1 (line "Add" +:+ line "HP-BW") "".

(** Both queues of the office are installed already. *)
Definition full_host : Host :=
  desk_host 0 (line "Cancel")
    (line "printer HP-BW is idle." +:+ line "printer HP-Color is idle.").

Definition listed_host : Host := desk_host 0 (line "Cancel") lpstat_text.

Definition paused_host : Host := desk_host 0 (line "Cancel") paused_text.

(** ** Vocabulary of the further statements *)

(** The value of an LDIF line [attribute: value], as the script reads it:
    what stands between the first and the second colon, without the blanks
    around it. *)
Definition field_value (attribute : string) : string :=
  PyStr.strip (nth 1 (PyStr.split_on ":" attribute) "").

(** The distinguished name the script keeps: that of the first [dn: ] line,
    and the empty string when there is none. *)
Fixpoint first_dn (lines : list string) : string :=
  match lines with
  | [] => ""
  | attribute :: rest =>
      if PyStr.startswith attribute "dn: " then field_value attribute
      else first_dn rest
  end.

(** The values of the [cn: ] lines, in order. *)
Definition cn_values (lines : list string) : list string :=
  field_value <$> filter (fun a => PyStr.startswith a "cn: " = true) lines.


Section FurtherVocabulary.
Context `{Host} `{Config}.

(** The filter of the group search for a distinguished name. *)
Definition group_search_filter (user_dn : string) : string :=
  if PyStr.is_empty ldap_group_name_format
  then "(member:1.2.840.113556.1.4.1941:=" +:+ user_dn +:+ ")"
  else "(&" +:+ ("(member:1.2.840.113556.1.4.1941:=" +:+ user_dn +:+ ")")
         +:+ "(cn=" +:+ ldap_group_name_format +:+ "))".




End FurtherVocabulary.

(** ** Further machines and catalogs *)

(** A queue reserved to a group, and one open to everybody. *)
Definition reserved : gmap string pyval :=
  {[ "DisplayName" := PStr "Reserved"; "ADFilterGroup" := PStr "Print-Lab" ]}.

Definition open_queue : gmap string pyval := {[ "DisplayName" := PStr "Open" ]}.

Definition restricted_catalog : gmap string (gmap string pyval) :=
  {[ "Reserved" := reserved; "Open" := open_queue ]}.

(** Definitions that lack keys the installer reads. *)
Definition bare : gmap string pyval :=
  {[ "DisplayName" := PStr "Bare"; "Driver" := PNone ]}.

Definition untriggered : gmap string pyval :=
  {[ "DisplayName" := PStr "Untriggered"; "Driver" := PStr "/opt/drv/x.ppd" ]}.

Definition bare_catalog : gmap string (gmap string pyval) :=
  {[ "Bare" := bare; "Untriggered" := untriggered ]}.

(** A definition stored under a key that is not its DisplayName. *)
Definition front_desk : gmap string pyval :=
  {[ "DisplayName" := PStr "Front Desk";
     "URI" := PStr "lpd://print.example.com/front";
     "Location" := PStr "Lobby";
     "Driver" := PNone;
     "Options" := PNone ]}.

Definition misfiled_catalog : gmap string (gmap string pyval) :=
  {[ "front" := front_desk ]}.

(** [lpstat] exits with status 1: no destination has been added. *)
Definition no_queue_host : Host :=
  scripted (fun _ => true)
    (fun argv =>
       if String.eqb (program argv) "/usr/bin/lpstat"
       then Some (Completed 1 "")
       else Some (Completed 0 "")).

Definition groups_text : string :=
  line "dn: CN=Print-Lab,OU=Groups,DC=example,DC=com"
  +:+ line "cn: Print-Lab"
  +:+ line ""
  +:+ line "dn: CN=Staff,OU=Groups,DC=example,DC=com"
  +:+ line "cn: Staff".

(** A ticket exists and both searches succeed. *)
Definition member_host : Host :=
  scripted (fun _ => true)
    (fun argv =>
       if String.eqb (program argv) "ldapsearch" then
         if String.eqb (List.last argv "") "dn"
         then Some (Completed 0 (line "dn: CN=jdoe,OU=Staff,DC=example,DC=com"))
         else Some (Completed 0 groups_text)
       else Some (Completed 0 "")).

(** A ticket exists and the directory refuses the first search. *)
Definition denied_host : Host :=
  scripted (fun _ => true)
    (fun argv =>
       if String.eqb (program argv) "ldapsearch" then Some (Completed 254 "")
       else Some (Completed 0 "")).

(** A fresh machine: no ticket, no file, no policy for any trigger, and a
    dialog tool that cannot be launched. *)
Definition fresh_host : Host :=
  scripted (fun _ => false)
    (fun argv =>
       if String.eqb (program argv) "klist" then Some (Completed 1 "")
       else if String.eqb (program argv) "/usr/local/bin/jamf"
            then Some (Completed 0 not_found_text)
       else if String.eqb (program argv)
                 "/Applications/cocoaDialog.app/Contents/MacOS/cocoaDialog"
            then None
       else Some (Completed 0 "")).

(** The policy runner cannot be launched. *)
Definition no_jamf_host : Host :=
  scripted (fun _ => false)
    (fun argv =>
       if String.eqb (program argv) "/usr/local/bin/jamf" then None
       else Some (Completed 0 "")).

(** * Properties *)

(** ** The string and value primitives on examples *)

Example splitlines_example :
  PyStr.splitlines
    ("a b" +:+ String PyStr.LF (String PyStr.LF ("c" +:+ String PyStr.CR (String PyStr.LF "d"))))
  = ["a b"; ""; "c"; "d"].
Proof. reflexivity. Qed.

Example splitlines_last_newline :
  PyStr.splitlines ("a" +:+ String PyStr.LF "") = ["a"] /\
  PyStr.splitlines (String PyStr.LF "") = [""] /\
  PyStr.splitlines "" = [].
Proof. repeat split. Qed.

Example split_example :
  PyStr.split ("  printer" +:+ String PyStr.TAB "HP-BW is  idle. ")
  = ["printer"; "HP-BW"; "is"; "idle."].
Proof. reflexivity. Qed.

Example split_on_example : PyStr.split_on ":" "dn: CN=a:b" = ["dn"; " CN=a"; "b"].
Proof. reflexivity. Qed.

Example strip_example : PyStr.strip "  CN=a b  " = "CN=a b".
Proof. reflexivity. Qed.

Example contains_example :
  PyStr.contains "log to" "Submitting log to x" = true /\
  PyStr.contains "" "" = true /\
  PyStr.contains "x" "" = false.
Proof. repeat split. Qed.

Example sorted_example :
  sorted [PStr "b"; PNone; PStr "B"; PStr "ab"; PStr "a"]
  = [PNone; PStr "B"; PStr "a"; PStr "ab"; PStr "b"].
Proof. reflexivity. Qed.

Example py_format_example :
  py_format [Lit "The queue "; ConvS; Lit " was added."] "HP-BW"
  = Ret "The queue HP-BW was added." /\
  py_format [Lit "No conversion"] "HP-BW" = Raise TypeError /\
  py_format [ConvS; ConvS] "HP-BW" = Raise TypeError.
Proof. repeat split. Qed.

(** ** The order used by [sorted] *)

Lemma dict_cmp_Gt_Lt (a b : gmap string string) :
  dict_cmp a b = Gt -> dict_cmp b a = Lt.
Proof.
  unfold dict_cmp. rewrite (Nat.compare_antisym (size a) (size b)).
  destruct (size a ?= size b)%nat; simpl; try discriminate; auto.
  destruct (dict_characterize a b) as [ka|], (dict_characterize b a) as [kb|];
    try discriminate.
  rewrite (String.compare_antisym kb.1 ka.1), (String.compare_antisym kb.2 ka.2).
  destruct (String.compare ka.1 kb.1); simpl; try discriminate; auto.
  destruct (String.compare ka.2 kb.2); simpl; try discriminate; auto.
Qed.

Lemma py_cmp_Gt_Lt (x y : pyval) : py_cmp x y = Gt -> py_cmp y x = Lt.
Proof.
  destruct x as [|s|a], y as [|t|b]; simpl; try discriminate; auto.
  - rewrite (String.compare_antisym t s).
    destruct (String.compare s t); simpl; try discriminate; auto.
  - apply dict_cmp_Gt_Lt.
Qed.

Lemma py_le_total (x y : pyval) : py_le x y = false -> py_le y x = true.
Proof.
  unfold py_le. destruct (py_cmp x y) eqn:E; try discriminate.
  intros _. now rewrite (py_cmp_Gt_Lt _ _ E).
Qed.

(** On two strings the order is the lexicographic one. *)
Lemma py_le_str (s t : string) : py_le (PStr s) (PStr t) = String.leb s t.
Proof. reflexivity. Qed.

Lemma insert_sorted_HdRel (x a : pyval) (l : list pyval) :
  py_le a x = true -> HdRel py_le_prop a l -> HdRel py_le_prop a (insert_sorted x l).
Proof.
  intros Hax Hl. destruct l as [|y l]; simpl.
  - now constructor.
  - destruct (py_le x y); constructor; auto. now inversion Hl.
Qed.

Lemma insert_sorted_Sorted (x : pyval) (l : list pyval) :
  Sorted py_le_prop l -> Sorted py_le_prop (insert_sorted x l).
Proof.
  induction 1 as [|y l Hs IH Hhd]; simpl.
  - repeat constructor.
  - destruct (py_le x y) eqn:E.
    + constructor; [now constructor|]. now constructor.
    + constructor; [exact IH|]. apply insert_sorted_HdRel; auto.
      now apply py_le_total.
Qed.

Lemma sorted_Sorted (l : list pyval) : Sorted py_le_prop (sorted l).
Proof.
  induction l as [|x l IH]; simpl; [constructor|].
  now apply insert_sorted_Sorted.
Qed.

Lemma insert_sorted_perm (x : pyval) (l : list pyval) : insert_sorted x l ≡ₚ x :: l.
Proof.
  induction l as [|y l IH]; simpl; [reflexivity|].
  destruct (py_le x y); [reflexivity|].
  rewrite IH. apply Permutation_swap.
Qed.

Lemma sorted_perm (l : list pyval) : sorted l ≡ₚ l.
Proof.
  induction l as [|x l IH]; simpl; [reflexivity|].
  now rewrite insert_sorted_perm, IH.
Qed.

Lemma elem_of_sorted (x : pyval) (l : list pyval) : x ∈ sorted l <-> x ∈ l.
Proof. now rewrite sorted_perm. Qed.

Lemma sorted_nil_inv (l : list pyval) : sorted l = [] -> l = [].
Proof.
  intros E. apply Permutation_nil_r. rewrite <- E. symmetry. apply sorted_perm.
Qed.

(** ** Running the monad *)

Section Properties.
Context `{Host} `{Config}.

Lemma bind_Ret {A B} (m : M A) (k : A -> M B) st st' a :
  m st = (st', Ret a) -> bind m k st = k a st'.
Proof. intros E. unfold bind. now rewrite E. Qed.

Lemma bind_Raise {A B} (m : M A) (k : A -> M B) st st' e :
  m st = (st', Raise e) -> bind m k st = (st', Raise e).
Proof. intros E. unfold bind. now rewrite E. Qed.

Lemma Popen_launched argv st w p :
  spawn (world st) argv = (w, Some p) ->
  Popen argv st = (State w (trace st ++ [Exec argv true]), Ret p).
Proof. intros E. unfold Popen. now rewrite E. Qed.

Lemma Popen_failed argv st w :
  spawn (world st) argv = (w, None) ->
  Popen argv st = (State w (trace st ++ [Exec argv false]), Raise OSError).
Proof. intros E. unfold Popen. now rewrite E. Qed.

Lemma show_message_shown text heading st w p :
  spawn (world st) (msgbox_argv text heading) = (w, Some p) ->
  show_message text heading st
  = (State w (trace st ++ [Exec (msgbox_argv text heading) true]), Ret true).
Proof.
  intros E. unfold show_message.
  rewrite (bind_Ret _ _ _ _ _ (Popen_launched _ _ _ _ E)). reflexivity.
Qed.

(** ** The eligibility loop *)

Lemma NoDup_fmap_elem_inj {A B} (f : A -> B) (l : list A) (x y : A) :
  NoDup (f <$> l) -> x ∈ l -> y ∈ l -> f x = f y -> x = y.
Proof.
  induction l as [|a l IH]; intros Hnd Hx Hy Hf.
  - inversion Hx.
  - rewrite fmap_cons in Hnd. apply NoDup_cons in Hnd as [Hnotin Hnd].
    apply elem_of_cons in Hx as [->|Hx]; apply elem_of_cons in Hy as [->|Hy]; auto.
    + exfalso. apply Hnotin. rewrite Hf. now apply list_elem_of_fmap_2.
    + exfalso. apply Hnotin. rewrite <- Hf. now apply list_elem_of_fmap_2.
Qed.

Lemma consider_queue_eligible cur fk fv groups q dl st :
  consider_queue cur fk fv groups q dl st
  = (st, match eligible cur fk fv groups q with
         | Ret true => Ret (dl ++ [get q "DisplayName"])
         | Ret false => Ret dl
         | Raise e => Raise e
         end).
Proof.
  unfold consider_queue, eligible.
  destruct (py_in_list (get q "DisplayName") cur); [reflexivity|].
  destruct (py_in_list (get q "CUPSName") cur); [reflexivity|].
  unfold bind, lift, ret.
  destruct (given fk && truthy (get_arg q fk)); simpl.
  - destruct (py_in fv (get_arg q fk)) as [[|]|e]; simpl; try reflexivity.
    destruct (truthy (get q "ADFilterGroup")
              && negb (py_in_list (get q "ADFilterGroup") groups)); reflexivity.
  - destruct (truthy (get q "ADFilterGroup")
              && negb (py_in_list (get q "ADFilterGroup") groups)); reflexivity.
Qed.

Lemma eligibility_loop cur fk fv groups l dl st st' dl' :
  for_each l (consider_queue cur fk fv groups) dl st = (st', Ret dl') ->
  st' = st /\
  dl' = dl ++ (display_name <$> filter (kept cur fk fv groups) l).
Proof.
  revert dl. induction l as [|q l IH]; intros dl; simpl.
  - unfold ret. intros [= <- <-]. now rewrite app_nil_r.
  - unfold bind. rewrite consider_queue_eligible. rewrite filter_cons.
    destruct (decide (kept cur fk fv groups q)) as [Hk|Hk].
    + unfold kept in Hk. rewrite Hk.
      intros Hl. apply IH in Hl as [-> ->]. split; [reflexivity|].
      now rewrite <- app_assoc.
    + destruct (eligible cur fk fv groups q) as [[|]|e] eqn:E.
      * now destruct Hk.
      * intros Hl. now apply IH in Hl.
      * discriminate.
Qed.

(** What [build_printer_queue_list] returns, when it returns. *)
Lemma build_printer_queue_list_returns cur fk fv groups st st' L :
  build_printer_queue_list cur fk fv groups st = (st', Ret L) ->
  st' = st /\
  L = sorted (display_name
                <$> filter (kept cur fk fv groups) catalog_values) /\
  L <> [].
Proof.
  unfold build_printer_queue_list, bind.
  destruct (for_each catalog_values _ [] st) as [st1 [dl|e]] eqn:E; [|discriminate].
  apply eligibility_loop in E as [-> E]. simpl in E. subst dl.
  destruct (_ <$> _) as [|x dl] eqn:Edl.
  - unfold Logger_log, emit, show_message, Popen, communicate, quit, raise, bind, ret.
    simpl. destruct (spawn _ _) as [w [p|]]; discriminate.
  - unfold ret. intros [= <- <-]. repeat split.
    intros E. apply (sorted_nil_inv (x :: dl)) in E. discriminate.
Qed.

Lemma kept_not_installed cur fk fv groups q :
  kept cur fk fv groups q ->
  py_in_list (get q "DisplayName") cur = false /\
  py_in_list (get q "CUPSName") cur = false.
Proof.
  unfold kept, eligible.
  destruct (py_in_list (get q "DisplayName") cur); [discriminate|].
  destruct (py_in_list (get q "CUPSName") cur); [discriminate|]. auto.
Qed.

(** Every entry of the list was put there by a definition that is not
    installed under either of its names. *)
Lemma eligible_entries_come_from_uninstalled cur fk fv groups st st' L x :
  build_printer_queue_list cur fk fv groups st = (st', Ret L) ->
  x ∈ L ->
  exists q, q ∈ catalog_values /\ display_name q = x /\
            py_in_list x cur = false /\
            py_in_list (get q "CUPSName") cur = false.
Proof.
  intros Hret Hx. apply build_printer_queue_list_returns in Hret as (_ & -> & _).
  apply elem_of_sorted, list_elem_of_fmap in Hx as (q & -> & Hq).
  apply list_elem_of_filter in Hq as [Hk Hq].
  apply kept_not_installed in Hk as [H1 H2]. eauto.
Qed.

(** C1 (as amended): when no two definitions of the catalog share a
    DisplayName, the list returned by [build_printer_queue_list] contains no
    DisplayName of a definition whose DisplayName is in the installed set,
    nor of a definition whose CUPSName is in the installed set. *)
Theorem eligible_list_excludes_installed cur fk fv groups st st' L
    (Hret : build_printer_queue_list cur fk fv groups st = (st', Ret L))
    (Hunique : NoDup (display_name <$> catalog_values)) :
  forall q, q ∈ catalog_values ->
    py_in_list (display_name q) cur = true
    \/ py_in_list (get q "CUPSName") cur = true ->
    display_name q ∉ L.
Proof.
  intros q Hq Hinst Hin.
  destruct (eligible_entries_come_from_uninstalled _ _ _ _ _ _ _ _ Hret Hin)
    as (q' & Hq' & Hname & Hd & Hc).
  assert (q' = q) as -> by now apply (NoDup_fmap_elem_inj display_name catalog_values).
  destruct Hinst as [Hi|Hi]; congruence.
Qed.

(** C5 (as amended): for a non-empty filter key [K] and a filter string [V],
    a definition that passes the other checks is retained whenever its
    attribute [K] is absent, null or empty, and, when the attribute is a
    non-empty string, is retained if and only if [V] is a substring of it.
    Retention is read off the returned list, in a catalog where no two
    definitions share a DisplayName. *)
Theorem attribute_filter_retention cur K V groups st st' L q
    (Hret : build_printer_queue_list cur (Some K) (Some V) groups st = (st', Ret L))
    (HK : K <> "")
    (Hunique : NoDup (display_name <$> catalog_values))
    (Hq : q ∈ catalog_values)
    (Hdn : py_in_list (display_name q) cur = false)
    (Hcups : py_in_list (get q "CUPSName") cur = false)
    (Hgrp : truthy (get q "ADFilterGroup") = true ->
            py_in_list (get q "ADFilterGroup") groups = true) :
  (truthy (get q K) = false -> display_name q ∈ L) /\
  (forall s, get q K = PStr s -> s <> "" ->
     (display_name q ∈ L <-> PyStr.contains V s = true)).
Proof.
  apply build_printer_queue_list_returns in Hret as (_ & -> & _).
  assert (Hgiven : given (Some K) = true) by (destruct K; [now destruct HK|reflexivity]).
  assert (Hg : negb (truthy (get q "ADFilterGroup")
                     && negb (py_in_list (get q "ADFilterGroup") groups)) = true).
  { destruct (truthy (get q "ADFilterGroup")); [|reflexivity].
    now rewrite Hgrp. }
  assert (Hin : forall q', kept cur (Some K) (Some V) groups q' -> q' ∈ catalog_values ->
                           display_name q' ∈ sorted (display_name <$> filter
                             (kept cur (Some K) (Some V) groups) catalog_values)).
  { intros q' Hk Hq'. apply elem_of_sorted, list_elem_of_fmap_2, list_elem_of_filter. auto. }
  assert (Hout : display_name q ∈ sorted (display_name <$> filter
                   (kept cur (Some K) (Some V) groups) catalog_values) ->
                 kept cur (Some K) (Some V) groups q).
  { intros Hx. apply elem_of_sorted, list_elem_of_fmap in Hx as (q' & Hname & Hq').
    apply list_elem_of_filter in Hq' as [Hk Hq'].
    now rewrite (NoDup_fmap_elem_inj display_name catalog_values q q' Hunique Hq Hq' Hname). }
  split.
  - intros Hfalsy. apply Hin; [|exact Hq].
    unfold kept, eligible. fold (display_name q). rewrite Hdn, Hcups, Hgiven. simpl.
    rewrite Hfalsy. simpl. now rewrite Hg.
  - intros s Hs Hne.
    assert (Ht : truthy (get q K) = true) by (rewrite Hs; destruct s; [now destruct Hne|reflexivity]).
    assert (Hel : eligible cur (Some K) (Some V) groups q = Ret (PyStr.contains V s)).
    { unfold eligible. fold (display_name q). rewrite Hdn, Hcups, Hgiven. simpl.
      rewrite Ht, Hs. simpl. destruct (PyStr.contains V s); [now rewrite Hg|reflexivity]. }
    split.
    + intros Hx. apply Hout in Hx. unfold kept in Hx. congruence.
    + intros Hc. apply Hin; [|exact Hq]. unfold kept. now rewrite Hel, Hc.
Qed.

(** C6: the list [build_printer_queue_list] returns is sorted in ascending
    order (on strings, the lexicographic order) and is never empty; when the
    loop leaves the display list empty the function does not return: it logs,
    launches the message box with the no-queues-available text and, once the
    box has been shown, raises [SystemExit]. *)
Theorem eligible_list_sorted_or_terminal cur fk fv groups st :
  (forall st' L, build_printer_queue_list cur fk fv groups st = (st', Ret L) ->
     Sorted py_le_prop L /\ L <> []) /\
  (for_each catalog_values (consider_queue cur fk fv groups) [] st = (st, Ret []) ->
     (forall st' L, build_printer_queue_list cur fk fv groups st <> (st', Ret L)) /\
     (forall w p,
        spawn (world st) (msgbox_argv msg_error_no_queues_available gui_window_title)
        = (w, Some p) ->
        build_printer_queue_list cur fk fv groups st
        = (State w (trace st ++
                    [Log "No currently-unmapped queues are available";
                     Exec (msgbox_argv msg_error_no_queues_available gui_window_title) true]),
           Raise (SystemExit None)))).
Proof.
  split.
  - intros st' L Hret. apply build_printer_queue_list_returns in Hret as (_ & -> & Hne).
    split; [apply sorted_Sorted|exact Hne].
  - intros Hempty. split.
    + intros st' L Hret.
      pose proof (build_printer_queue_list_returns _ _ _ _ _ _ _ Hret) as (_ & -> & Hne).
      apply eligibility_loop in Hempty as [_ Hdl]. simpl in Hdl.
      apply Hne. fold display_name in Hdl. now rewrite <- Hdl.
    + intros w p Hspawn. unfold build_printer_queue_list.
      rewrite (bind_Ret _ _ _ _ _ Hempty).
      unfold Logger_log, emit, bind. simpl.
      rewrite (show_message_shown _ _ (State (world st) _) w p Hspawn). simpl.
      now rewrite <- app_assoc.
Qed.

(** ** The installed-queue inspector *)

Lemma getidx_second (l : list string) st :
  (2 <= length l)%nat -> getidx l 1 st = (st, Ret (nth 1 l "")).
Proof.
  destruct l as [|a [|b l]]; simpl; try lia. reflexivity.
Qed.

Lemma getidx_short (l : list string) st :
  (length l < 2)%nat -> getidx l 1 st = (st, Raise IndexError).
Proof.
  destruct l as [|a [|b l]]; simpl; try lia; reflexivity.
Qed.

Lemma second_token_loop lines acc st :
  (forall line, line ∈ lines -> (2 <= length (PyStr.split line))%nat) ->
  for_each lines append_second_token acc st
  = (st, Ret (acc ++ (second_token <$> lines))).
Proof.
  revert acc. induction lines as [|line lines IH]; intros acc Hall; simpl.
  - unfold ret. now rewrite app_nil_r.
  - unfold bind at 1. unfold append_second_token at 1. unfold bind at 1.
    rewrite getidx_second by (apply Hall; left).
    unfold ret at 1. rewrite IH by (intros l Hl; apply Hall; now right).
    now rewrite <- app_assoc.
Qed.

Lemma second_token_loop_fails lines acc st :
  (exists line, line ∈ lines /\ (length (PyStr.split line) < 2)%nat) ->
  for_each lines append_second_token acc st = (st, Raise IndexError).
Proof.
  revert acc. induction lines as [|line lines IH]; intros acc (bad & Hin & Hshort).
  - inversion Hin.
  - simpl. unfold bind at 1. unfold append_second_token at 1. unfold bind at 1.
    destruct (le_lt_dec 2 (length (PyStr.split line))) as [Hok|Hko].
    + rewrite getidx_second by exact Hok. unfold ret at 1.
      apply IH. exists bad. split; [|exact Hshort].
      apply elem_of_cons in Hin as [->|Hin]; [lia|exact Hin].
    + now rewrite getidx_short by exact Hko.
Qed.

Lemma lpstat_output st w out :
  spawn (world st) lpstat_argv = (w, Some (Completed 0 out)) ->
  get_currently_mapped_queues st
  = (if PyStr.is_empty out then ret []
     else for_each (PyStr.splitlines out) append_second_token [])
      (State w (trace st ++ [Log "Gathering list of currently mappped queues";
                             Exec lpstat_argv true])).
Proof.
  intros Hspawn. unfold get_currently_mapped_queues.
  unfold bind at 1. unfold try_except, Logger_log, check_output, emit, bind. simpl.
  unfold Popen. simpl. rewrite Hspawn. simpl. rewrite <- app_assoc. simpl.
  destruct (PyStr.is_empty out); reflexivity.
Qed.

(** C10: when [lpstat] prints a non-empty text, [get_currently_mapped_queues]
    returns the second blank-separated token of every line provided every
    line has at least two tokens, and fails with [IndexError] as soon as some
    line has fewer. *)
Theorem mapped_queues_second_tokens st w out
    (Hspawn : spawn (world st) lpstat_argv = (w, Some (Completed 0 out)))
    (Hout : out <> "") :
  ((forall line, line ∈ PyStr.splitlines out -> (2 <= length (PyStr.split line))%nat) ->
   (get_currently_mapped_queues st).2 = Ret (second_token <$> PyStr.splitlines out)) /\
  ((exists line, line ∈ PyStr.splitlines out /\ (length (PyStr.split line) < 2)%nat) ->
   (get_currently_mapped_queues st).2 = Raise IndexError).
Proof.
  rewrite (lpstat_output _ _ _ Hspawn).
  destruct out as [|c out]; [now destruct Hout|].
  change (PyStr.is_empty (String c out)) with false. cbv iota.
  split; intros Hlines.
  - now rewrite second_token_loop.
  - now rewrite second_token_loop_fails.
Qed.

(** ** The policy runner *)

Lemma run_jamf_policy_result trigger quiet out st :
  (quiet = false -> dialog_available) ->
  policy_prints trigger out ->
  exists w',
    run_jamf_policy trigger quiet st
    = (State w' (trace st ++ policy_events trigger quiet out),
       Ret (if PyStr.contains "No policies were found for the" out then false
            else if PyStr.contains "Submitting log to" out then true
            else false)).
Proof.
  intros Hdialog Hpolicy. unfold run_jamf_policy, policy_events.
  destruct quiet; simpl.
  - destruct (Hpolicy (world st)) as (w1 & rc & E1).
    exists w1. unfold bind, ret, communicate, Popen, Logger_log, emit. simpl.
    rewrite E1. simpl.
    destruct (PyStr.contains "No policies were found for the" out); simpl.
    + now rewrite <- app_assoc.
    + destruct (PyStr.contains "Submitting log to" out); simpl.
      * now rewrite <- app_assoc.
      * reflexivity.
  - destruct (Hdialog eq_refl (world st) (tl progressbar_argv)) as (w1 & p1 & E1).
    destruct (Hpolicy w1) as (w2 & rc & E2).
    exists w2. unfold bind, ret, communicate, Popen, Logger_log, emit. simpl.
    change (CDPATH :: tl progressbar_argv) with progressbar_argv in E1.
    rewrite E1. simpl. rewrite E2. simpl.
    destruct (PyStr.contains "No policies were found for the" out); simpl.
    + now rewrite <- !app_assoc.
    + destruct (PyStr.contains "Submitting log to" out); simpl.
      * now rewrite <- !app_assoc.
      * now rewrite <- !app_assoc.
Qed.

(** C2 (as amended): whatever the trigger and the text the policy prints,
    [run_jamf_policy] returns false when the text contains the
    no-policy-found marker, true when it contains the submission marker and
    not the no-policy-found marker, and false when it contains neither. *)
Theorem run_jamf_policy_classification trigger quiet out st
    (Hdialog : quiet = false -> dialog_available)
    (Hpolicy : policy_prints trigger out) :
  (PyStr.contains "No policies were found for the" out = true ->
   (run_jamf_policy trigger quiet st).2 = Ret false) /\
  (PyStr.contains "No policies were found for the" out = false ->
   PyStr.contains "Submitting log to" out = true ->
   (run_jamf_policy trigger quiet st).2 = Ret true) /\
  (PyStr.contains "No policies were found for the" out = false ->
   PyStr.contains "Submitting log to" out = false ->
   (run_jamf_policy trigger quiet st).2 = Ret false).
Proof.
  destruct (run_jamf_policy_result trigger quiet out st Hdialog Hpolicy) as (w & ->).
  simpl. repeat split.
  - now intros ->.
  - now intros -> ->.
  - now intros -> ->.
Qed.

(** ** Driver resolution *)

Lemma show_message_available text heading st :
  dialog_available ->
  exists w',
    show_message text heading st
    = (State w' (trace st ++ [Exec (msgbox_argv text heading) true]), Ret true).
Proof.
  intros Hdialog.
  destruct (Hdialog (world st) (tl (msgbox_argv text heading))) as (w & p & E).
  exists w. now apply (show_message_shown _ _ _ _ p).
Qed.

Arguments show_message : simpl never.
Arguments run_jamf_policy : simpl never.
Arguments lookup : simpl never.

Ltac use_policy E Hd Hp out :=
  match type of E with
  | context [run_jamf_policy ?t ?q ?s] =>
      let w := fresh "w" in
      let Ep := fresh "Ep" in
      destruct (run_jamf_policy_result t q out s Hd Hp) as (w & Ep);
      rewrite Ep in E; clear Ep
  end.

Ltac use_dialog E Hd :=
  match type of E with
  | context [show_message ?a ?b ?s] =>
      let w := fresh "w" in
      let Ed := fresh "Ed" in
      destruct (show_message_available a b s Hd) as (w & Ed);
      rewrite Ed in E; clear Ed
  end.

Ltac finish_run E w :=
  unfold quit, sys_exit, raise, ret in E; simpl in E;
  injection E as <- <-; exists w; rewrite <- ?app_assoc; reflexivity.

Lemma search_for_driver_policy_not_found d t out st :
  path_exists (world st) d = false ->
  dialog_available ->
  policy_prints t out ->
  PyStr.contains "No policies were found for the" out = true ->
  exists w',
    search_for_driver (PStr d) (PStr t) st
    = (State w' (trace st ++
                 [Log ("The driver was not found at " +:+ d);
                  Log ("Attempting to install drivers via policy trigger " +:+ t);
                  Exec progressbar_argv true;
                  Exec (jamf_argv t) true;
                  Terminate progressbar_argv;
                  Log ("Unable to run Jamf policy via trigger " +:+ t);
                  Exec (msgbox_argv msg_error_driver_failure gui_window_title) true;
                  Log "Quitting program"]),
       Raise (SystemExit None)).
Proof.
  intros Habsent Hdialog Hpolicy Hmarker.
  destruct (search_for_driver (PStr d) (PStr t) st) as [st' r] eqn:Erun.
  unfold search_for_driver, install_drivers, as_str, os_path_exists in Erun.
  unfold bind, ret, Logger_log, emit in Erun. rewrite Habsent in Erun. simpl in Erun.
  use_policy Erun (fun _ : false = false => Hdialog) Hpolicy out.
  rewrite Hmarker in Erun. simpl in Erun.
  use_dialog Erun Hdialog. simpl in Erun.
  unfold policy_events in Erun. rewrite Hmarker in Erun.
  finish_run Erun w0.
Qed.

Arguments search_for_driver : simpl never.

(** C3 (as amended): for a queue whose Driver is set and whose driver file
    is absent, when the policy runner prints the no-policy-found marker the
    run shows the driver-failure message and ends through [quit()], that is
    with exit status 0; no registration command is launched. *)
Theorem driver_policy_not_found_quits name q n d t out st
    (Hq : QUEUE_DEFINITIONS !! name = Some q)
    (Hn : q !! "DisplayName" = Some (PStr n))
    (Hd : q !! "Driver" = Some (PStr d))
    (Hset : d <> "")
    (Ht : q !! "DriverTrigger" = Some (PStr t))
    (Habsent : path_exists (world st) d = false)
    (Hdialog : dialog_available)
    (Hpolicy : policy_prints t out)
    (Hmarker : PyStr.contains "No policies were found for the" out = true) :
  (exists w',
     add_queue name st
     = (State w' (trace st ++ driver_failure_events n d t), Raise (SystemExit None))) /\
  exit_status (add_queue name st).2 = 0%Z /\
  registration_attempted (driver_failure_events n d t) = false.
Proof.
  assert (Hrun : exists w',
             add_queue name st
             = (State w' (trace st ++ driver_failure_events n d t),
                Raise (SystemExit None))).
  { destruct (add_queue name st) as [st' r] eqn:Erun.
    unfold add_queue, getitem, as_str in Erun.
    unfold bind, ret, Logger_log, emit in Erun.
    rewrite Hq in Erun. cbv beta iota in Erun. rewrite Hd, Hn, Ht in Erun.
    destruct d as [|c d]; [now destruct Hset|]. simpl in Erun.
    match type of Erun with
    | context [search_for_driver _ _ ?s] =>
        destruct (search_for_driver_policy_not_found (String c d) t out s
                    Habsent Hdialog Hpolicy Hmarker) as (w & Es);
        rewrite Es in Erun
    end.
    simpl in Erun. finish_run Erun w. }
  split; [exact Hrun|]. destruct Hrun as (w & ->). split; reflexivity.
Qed.

(** ** Pre-selected queues *)

Lemma prefix_append (n b : string) : String.prefix n (n +:+ b) = true.
Proof.
  induction n as [|c n IH]; simpl.
  - now destruct b.
  - destruct (ascii_dec c c) as [_|ne]; [exact IH|now destruct ne].
Qed.

Lemma contains_append_r (n a s : string) :
  PyStr.contains n s = true -> PyStr.contains n (a +:+ s) = true.
Proof.
  intros Hs. induction a as [|c a IH]; simpl; [exact Hs|].
  rewrite IH. apply orb_true_r.
Qed.

Lemma contains_append_l (n b : string) : PyStr.contains n (n +:+ b) = true.
Proof.
  pose proof (prefix_append n b) as Hp.
  destruct (n +:+ b); cbn [PyStr.contains]; now rewrite Hp.
Qed.

(** A message built from a template with a conversion names the argument. *)
Lemma render_names (t : list piece) (arg : string) :
  ConvS ∈ t -> PyStr.contains arg (render t arg) = true.
Proof.
  induction t as [|x t IH]; intros Hin; [inversion Hin|].
  destruct x as [text|]; simpl.
  - apply contains_append_r, IH.
    apply elem_of_cons in Hin as [Habs|Hin]; [discriminate Habs|exact Hin].
  - apply contains_append_l.
Qed.

Lemma one_conversion (t : list piece) :
  length (filter (fun x => is_conv x = true) t) = 1%nat -> ConvS ∈ t.
Proof.
  intros Hlen.
  destruct (filter (fun x => is_conv x = true) t) as [|x l] eqn:E; [discriminate|].
  assert (Hx : x ∈ filter (fun x => is_conv x = true) t) by (rewrite E; left).
  apply list_elem_of_filter in Hx as [Hc Hx]. now destruct x.
Qed.

(** C4: when the pre-selected DisplayName is not in the eligible list, the
    run shows the pre-selection error, which names the rejected value, then
    the generic error, and exits with status 1; neither the selection prompt
    nor the registration command is launched. *)
Theorem invalid_preselection_is_fatal args p groups mapped available st st1 st2 st3
    (Hpre : preselected_queue args = Some p)
    (Hp : p <> "")
    (Hgroups : user_ldap_groups (jamf_user args) st = (st1, Ret groups))
    (Hmapped : get_currently_mapped_queues st1 = (st2, Ret mapped))
    (Hlist : build_printer_queue_list mapped (filter_key args) (filter_value args)
               groups st2 = (st3, Ret available))
    (Hnot : PStr p ∉ available)
    (Htemplate : length (filter (fun x => is_conv x = true) msg_error_preselected_queue)
                 = 1%nat)
    (Hdialog : dialog_available) :
  (exists w',
     main args st
     = (State w' (trace st3 ++ invalid_preselection_events p),
        Raise (SystemExit (Some 1%Z)))) /\
  exit_status (main args st).2 = 1%Z /\
  PyStr.contains p (render msg_error_preselected_queue p) = true /\
  registration_attempted (invalid_preselection_events p) = false /\
  prompt_presented (invalid_preselection_events p) = false.
Proof.
  assert (Hrun : exists w',
             main args st
             = (State w' (trace st3 ++ invalid_preselection_events p),
                Raise (SystemExit (Some 1%Z)))).
  { destruct (main args st) as [st' r] eqn:Erun.
    unfold main in Erun.
    rewrite (bind_Ret _ _ _ _ _ Hgroups) in Erun.
    rewrite (bind_Ret _ _ _ _ _ Hmapped) in Erun.
    rewrite (bind_Ret _ _ _ _ _ Hlist) in Erun.
    rewrite Hpre in Erun.
    assert (Hgiven : given (Some p) = true) by (destruct p; [now destruct Hp|reflexivity]).
    rewrite Hgiven in Erun.
    rewrite (bool_decide_eq_false_2 _ Hnot) in Erun.
    unfold py_format in Erun. rewrite Htemplate in Erun. simpl in Erun.
    unfold error_and_exit, lift, bind, ret, Logger_log, emit in Erun. simpl in Erun.
    use_dialog Erun Hdialog. simpl in Erun.
    use_dialog Erun Hdialog. simpl in Erun.
    finish_run Erun w0. }
  split; [exact Hrun|]. destruct Hrun as (w & ->).
  split; [reflexivity|]. split; [|split; reflexivity].
  now apply render_names, one_conversion.
Qed.

(** ** The group resolver *)

(** X18: without a ticket the resolver returns the empty list and launches
    nothing but [klist]. *)
Lemma user_ldap_groups_without_ticket username st w rc out :
  spawn (world st) klist_argv = (w, Some (Completed rc out)) ->
  rc <> 0%Z ->
  user_ldap_groups username st
  = (State w (trace st ++
              [Log "Generating list of user's AD groups";
               Exec klist_argv true;
               Log "Kerberos ticket not found. AD group filtering disabled."]),
     Ret []).
Proof.
  intros Hklist Hrc. unfold user_ldap_groups, has_kerberos_ticket, subprocess_call.
  unfold bind, ret, Logger_log, emit, Popen. simpl.
  change ["klist"; "-s"] with klist_argv. rewrite Hklist. simpl.
  destruct (Z.eqb_spec rc 0) as [->|_]; [now destruct Hrc|]. simpl.
  now rewrite <- !app_assoc.
Qed.

(** X19: a failure of the first lookup is reported to the operator and ends
    the run through [quit()]; status 254 is logged as an authentication
    error, any other status as an unknown error with its code. *)
Lemma first_lookup_failure_reported u st w1 out1 w2 rc out2 :
  spawn (world st) klist_argv = (w1, Some (Completed 0 out1)) ->
  spawn w1 (user_search_argv u) = (w2, Some (Completed rc out2)) ->
  rc <> 0%Z ->
  dialog_available ->
  exists w3,
    user_ldap_groups (Some u) st
    = (State w3 (trace st ++
                 [Log "Generating list of user's AD groups";
                  Exec klist_argv true;
                  Exec (user_search_argv u) true;
                  Log (if (rc =? 254)%Z
                       then "Encountered an authentication error while searching ldap."
                       else "Unknown error searching ldap. (Error code: "
                              +:+ PyStr.str_of_Z rc +:+ ")");
                  Exec (msgbox_argv ldap_msg_error gui_window_title) true]),
       Raise (SystemExit None)).
Proof.
  intros Hklist Hsearch Hrc Hdialog.
  destruct (user_ldap_groups (Some u) st) as [st' r] eqn:Erun.
  unfold user_ldap_groups, has_kerberos_ticket, subprocess_call, check_output in Erun.
  unfold try_except, bind, ret, Logger_log, emit, Popen in Erun. simpl in Erun.
  change ["klist"; "-s"] with klist_argv in Erun. rewrite Hklist in Erun. simpl in Erun.
  change (ldapsearch_argv _ "dn") with (user_search_argv u) in Erun.
  rewrite Hsearch in Erun. simpl in Erun.
  destruct (Z.eqb_spec rc 0) as [->|_]; [now destruct Hrc|]. simpl in Erun.
  destruct (rc =? 254)%Z; simpl in Erun.
  - use_dialog Erun Hdialog. finish_run Erun w.
  - use_dialog Erun Hdialog. finish_run Erun w.
Qed.

Lemma split_on_from_cons sep cur s :
  exists x l, PyStr.split_on_from sep cur s = x :: l.
Proof.
  revert cur. induction s as [|c s IH]; intros cur; simpl; [eauto|].
  destruct (Ascii.eqb c sep); [eauto|apply IH].
Qed.

Lemma prefix_cons_inv c p s :
  String.prefix (String c p) s = true ->
  exists s', s = String c s' /\ String.prefix p s' = true.
Proof.
  destruct s as [|c' s']; cbn [String.prefix]; [discriminate|].
  destruct (ascii_dec c c') as [<-|]; [eauto|discriminate].
Qed.

(** The loop that reads the distinguished name cannot fail: a line that
    starts with [dn: ] has a second field. *)
Lemma find_user_dn_returns dn user_dn st :
  exists v, find_user_dn dn user_dn st = (st, Ret v).
Proof.
  induction dn as [|a dn IH]; simpl; [now eexists|].
  destruct (PyStr.startswith a "dn: ") eqn:E; [|exact IH].
  unfold PyStr.startswith in E.
  apply prefix_cons_inv in E as (s1 & -> & E).
  apply prefix_cons_inv in E as (s2 & -> & E).
  apply prefix_cons_inv in E as (s3 & -> & E).
  apply prefix_cons_inv in E as (rest & -> & _).
  unfold PyStr.split_on. simpl.
  destruct (split_on_from_cons ":" (PyStr.snoc "" " ") rest) as (x & l & ->).
  simpl. now eexists.
Qed.

(** The group search is not guarded: when it fails, whatever the filter,
    [CalledProcessError] leaves [user_ldap_groups] and no message box has
    been launched. *)
Lemma second_lookup_failure_unhandled u st w1 out1 w2 out2 :
  spawn (world st) klist_argv = (w1, Some (Completed 0 out1)) ->
  spawn w1 (user_search_argv u) = (w2, Some (Completed 0 out2)) ->
  (forall flt, exists w3 rc out3,
      spawn w2 (ldapsearch_argv flt "cn") = (w3, Some (Completed rc out3))
      /\ rc <> 0%Z) ->
  exists w3 rc flt,
    rc <> 0%Z /\
    user_ldap_groups (Some u) st
    = (State w3 (trace st ++
                 [Log "Generating list of user's AD groups";
                  Exec klist_argv true;
                  Exec (user_search_argv u) true;
                  Exec (ldapsearch_argv flt "cn") true]),
       Raise (CalledProcessError rc)) /\
    message_shown [Log "Generating list of user's AD groups";
                   Exec klist_argv true;
                   Exec (user_search_argv u) true;
                   Exec (ldapsearch_argv flt "cn") true] = false.
Proof.
  intros Hklist Hsearch Hgroups.
  destruct (user_ldap_groups (Some u) st) as [st' r] eqn:Erun.
  unfold user_ldap_groups, has_kerberos_ticket, subprocess_call in Erun.
  unfold check_output at 1 in Erun.
  unfold try_except, bind, ret, Logger_log, emit, Popen in Erun. simpl in Erun.
  change ["klist"; "-s"] with klist_argv in Erun. rewrite Hklist in Erun. simpl in Erun.
  change (ldapsearch_argv _ "dn") with (user_search_argv u) in Erun.
  rewrite Hsearch in Erun. simpl in Erun.
  match type of Erun with
  | context [find_user_dn ?l ?d ?s] =>
      destruct (find_user_dn_returns l d s) as (v & Ev); rewrite Ev in Erun
  end.
  unfold check_output, bind, Popen in Erun. simpl in Erun.
  match type of Erun with
  | context [spawn w2 (ldapsearch_argv ?flt "cn")] =>
      destruct (Hgroups flt) as (w3 & rc & out3 & E3 & Hrc);
      rewrite E3 in Erun; exists w3, rc, flt
  end.
  simpl in Erun. destruct (Z.eqb_spec rc 0) as [->|_]; [now destruct Hrc|].
  unfold raise in Erun. injection Erun as <- <-.
  split; [exact Hrc|]. split; [|reflexivity].
  now rewrite <- !app_assoc.
Qed.

(** ** The queue installer *)

(** A registration command that cannot be launched: the exception leaves
    [add_queue], and nothing is shown. *)
Lemma registration_launch_failure_unhandled name q n l u st w :
  QUEUE_DEFINITIONS !! name = Some q ->
  q !! "Driver" = Some PNone ->
  q !! "DisplayName" = Some (PStr n) ->
  q !! "Location" = Some (PStr l) ->
  q !! "URI" = Some (PStr u) ->
  q !! "Options" = Some PNone ->
  spawn (world st) (generic_lpadmin_argv n l u) = (w, None) ->
  add_queue name st
  = (State w (trace st ++ [Log (n +:+ " uses a generic driver");
                           Exec (generic_lpadmin_argv n l u) false]),
     Raise OSError).
Proof.
  intros Hq Hdrv Hn Hl Hu Ho Hspawn.
  unfold add_queue, getitem, as_str.
  unfold bind, ret, Logger_log, emit.
  rewrite Hq. cbv beta iota. rewrite Hdrv, Hn, Hl, Hu, Ho. simpl.
  unfold Popen. simpl. fold (generic_lpadmin_argv n l u). rewrite Hspawn.
  now rewrite <- !app_assoc.
Qed.

(** X20: once the registration command of a queue on the generic driver is
    launched the run reports success and ends through [quit()], whatever the
    command's own exit status [rc]. *)
Lemma registration_launched_reports_success name q n l u st w rc out :
  QUEUE_DEFINITIONS !! name = Some q ->
  q !! "Driver" = Some PNone ->
  q !! "DisplayName" = Some (PStr n) ->
  q !! "Location" = Some (PStr l) ->
  q !! "URI" = Some (PStr u) ->
  q !! "Options" = Some PNone ->
  spawn (world st) (generic_lpadmin_argv n l u) = (w, Some (Completed rc out)) ->
  length (filter (fun x => is_conv x = true) msg_success_queue_added) = 1%nat ->
  dialog_available ->
  exists w',
    add_queue name st
    = (State w' (trace st ++
                 [Log (n +:+ " uses a generic driver");
                  Exec (generic_lpadmin_argv n l u) true;
                  Log ("Excuting command: "
                         +:+ PyStr.join " " (generic_lpadmin_argv n l u));
                  Log ("Queue " +:+ n +:+ " successfully mapped");
                  Exec (msgbox_argv (render msg_success_queue_added n) "Success!") true]),
       Raise (SystemExit None)).
Proof.
  intros Hq Hdrv Hn Hl Hu Ho Hspawn Htemplate Hdialog.
  destruct (add_queue name st) as [st' r] eqn:Erun.
  unfold add_queue, getitem, as_str, py_format in Erun.
  unfold try_except, lift, bind, ret, Logger_log, emit, communicate in Erun.
  rewrite Hq in Erun. cbv beta iota in Erun.
  rewrite Hdrv, Hn, Hl, Hu, Ho, Htemplate in Erun. simpl in Erun.
  unfold Popen in Erun. simpl in Erun.
  fold (generic_lpadmin_argv n l u) in Erun. rewrite Hspawn in Erun. simpl in Erun.
  use_dialog Erun Hdialog. simpl in Erun. finish_run Erun w0.
Qed.

(** ** Cancellation *)

Lemma strs_strings (items : list string) st :
  strs (PStr <$> items) st = (st, Ret items).
Proof.
  induction items as [|x items IH]; [reflexivity|].
  change (PStr <$> x :: items) with (PStr x :: (PStr <$> items)).
  cbn [strs as_str]. unfold bind at 1. unfold ret at 1. unfold bind at 1.
  now rewrite IH.
Qed.

(** X21: when the operator cancels the prompt, [main] returns: nothing but
    the prompt is launched after the eligible list has been built. *)
Lemma cancellation_installs_nothing args groups mapped items st st1 st2 st3 w rc :
  given (preselected_queue args) = false ->
  user_ldap_groups (jamf_user args) st = (st1, Ret groups) ->
  get_currently_mapped_queues st1 = (st2, Ret mapped) ->
  build_printer_queue_list mapped (filter_key args) (filter_value args) groups st2
  = (st3, Ret (PStr <$> items)) ->
  path_exists (world st3) CDPATH = true ->
  spawn (world st3) (dropdown_argv items)
  = (w, Some (Completed rc ("Cancel" +:+ String PyStr.LF ""))) ->
  main args st
  = (State w (trace st3 ++
              [Log "Prompting user to select desired queue";
               Exec (dropdown_argv items) true;
               Log "User canceled queue selection"]),
     Ret tt) /\
  exit_status (main args st).2 = 0%Z /\
  registration_attempted
    [Log "Prompting user to select desired queue";
     Exec (dropdown_argv items) true;
     Log "User canceled queue selection"] = false.
Proof.
  intros Hpre Hgroups Hmapped Hlist Hthere Hprompt.
  assert (Hrun : main args st
                 = (State w (trace st3 ++
                       [Log "Prompting user to select desired queue";
                        Exec (dropdown_argv items) true;
                        Log "User canceled queue selection"]),
                    Ret tt)).
  { unfold main.
    rewrite (bind_Ret _ _ _ _ _ Hgroups), (bind_Ret _ _ _ _ _ Hmapped),
      (bind_Ret _ _ _ _ _ Hlist), Hpre.
    unfold check_for_cocoadialog, os_path_exists, prompt_queue, communicate.
    unfold bind, ret, Logger_log, emit. rewrite Hthere. simpl.
    rewrite strs_strings. unfold Popen. simpl. rewrite Hprompt. simpl.
    rewrite ?String.eqb_refl. simpl. now rewrite <- !app_assoc. }
  rewrite Hrun. repeat split.
Qed.

(** ** Explicit exit statuses *)

































(** ** Further properties of the eligibility filter *)

Lemma eligible_raises_TypeError cur fk fv groups q e :
  eligible cur fk fv groups q = Raise e -> e = TypeError.
Proof.
  unfold eligible.
  destruct (py_in_list (get q "DisplayName") cur); [discriminate|].
  destruct (py_in_list (get q "CUPSName") cur); [discriminate|].
  destruct (given fk && truthy (get_arg q fk)); [|discriminate].
  unfold py_in. intros Hr. repeat case_match; try discriminate; congruence.
Qed.

Lemma eligibility_loop_raises cur fk fv groups l dl st q :
  q ∈ l -> eligible cur fk fv groups q = Raise TypeError ->
  for_each l (consider_queue cur fk fv groups) dl st = (st, Raise TypeError).
Proof.
  intros Hin Hq. revert dl. induction l as [|a l IH]; intros dl; [inversion Hin|].
  simpl. unfold bind. rewrite consider_queue_eligible.
  destruct (eligible cur fk fv groups a) as [[|]|e] eqn:Ea.
  - apply elem_of_cons in Hin as [->|Hin]; [congruence|now apply IH].
  - apply elem_of_cons in Hin as [->|Hin]; [congruence|now apply IH].
  - now rewrite (eligible_raises_TypeError _ _ _ _ _ _ Ea).
Qed.

(** X1: a definition that passes the other checks and names a group in
    ADFilterGroup is in the list exactly when the user is a member of that
    group (read off the list in a catalog without shared DisplayNames); with
    an empty group list it is therefore left out. *)
Theorem group_filter_retention cur fk fv groups st st' L q g
    (Hret : build_printer_queue_list cur fk fv groups st = (st', Ret L))
    (Hunique : NoDup (display_name <$> catalog_values))
    (Hq : q ∈ catalog_values)
    (Hdn : py_in_list (display_name q) cur = false)
    (Hcups : py_in_list (get q "CUPSName") cur = false)
    (Hfilter : given fk && truthy (get_arg q fk) = true ->
               py_in fv (get_arg q fk) = Ret true)
    (Hgroup : get q "ADFilterGroup" = PStr g)
    (Hg : g <> "") :
  display_name q ∈ L <-> g ∈ groups.
Proof.
  apply build_printer_queue_list_returns in Hret as (_ & -> & _).
  assert (Hel : eligible cur fk fv groups q = Ret (bool_decide (g ∈ groups))).
  { unfold eligible. fold (display_name q). rewrite Hdn, Hcups.
    destruct (given fk && truthy (get_arg q fk)).
    - rewrite Hfilter by reflexivity. rewrite Hgroup. simpl.
      destruct g; [now destruct Hg|]. simpl. now rewrite negb_involutive.
    - rewrite Hgroup. simpl.
      destruct g; [now destruct Hg|]. simpl. now rewrite negb_involutive. }
  rewrite elem_of_sorted, list_elem_of_fmap. split.
  - intros (q' & Hname & Hq'). apply list_elem_of_filter in Hq' as [Hk Hq'].
    rewrite <- (NoDup_fmap_elem_inj display_name catalog_values q q' Hunique Hq Hq' Hname)
      in Hk.
    unfold kept in Hk. rewrite Hel in Hk. injection Hk as Hk.
    now apply bool_decide_eq_true in Hk.
  - intros Hin. exists q. split; [reflexivity|]. apply list_elem_of_filter.
    split; [|exact Hq]. unfold kept. rewrite Hel. f_equal.
    now apply bool_decide_eq_true.
Qed.

(** X2: with a filter key and no filter value, the list cannot be built as
    soon as one definition that is not installed has a non-empty string under
    that key: the substring test raises [TypeError], and nothing has been
    logged or launched. *)
Theorem missing_filter_value_raises cur K groups st q s
    (HK : K <> "")
    (Hq : q ∈ catalog_values)
    (Hdn : py_in_list (display_name q) cur = false)
    (Hcups : py_in_list (get q "CUPSName") cur = false)
    (Hattr : get q K = PStr s)
    (Hs : s <> "") :
  build_printer_queue_list cur (Some K) None groups st = (st, Raise TypeError).
Proof.
  unfold build_printer_queue_list.
  apply bind_Raise. apply (eligibility_loop_raises _ _ _ _ _ _ _ q Hq).
  unfold eligible. fold (display_name q). rewrite Hdn, Hcups.
  destruct K; [now destruct HK|]. simpl given. simpl get_arg. rewrite Hattr.
  destruct s; [now destruct Hs|]. reflexivity.
Qed.

(** X3: nothing eligible is lost, and building the list touches nothing: a
    definition that is not installed under either name, that the attribute
    filter does not exclude and whose group, if it names one, is among the
    user's, has its DisplayName in the returned list; the state after the
    call is the state before it. *)
Theorem eligible_list_complete cur fk fv groups st st' L q
    (Hret : build_printer_queue_list cur fk fv groups st = (st', Ret L))
    (Hq : q ∈ catalog_values)
    (Hdn : py_in_list (display_name q) cur = false)
    (Hcups : py_in_list (get q "CUPSName") cur = false)
    (Hfilter : given fk && truthy (get_arg q fk) = true ->
               py_in fv (get_arg q fk) = Ret true)
    (Hgroup : truthy (get q "ADFilterGroup") = true ->
              py_in_list (get q "ADFilterGroup") groups = true) :
  display_name q ∈ L /\ st' = st.
Proof.
  apply build_printer_queue_list_returns in Hret as (-> & -> & _).
  split; [|reflexivity].
  apply elem_of_sorted, list_elem_of_fmap_2, list_elem_of_filter.
  split; [|exact Hq]. unfold kept, eligible. fold (display_name q).
  rewrite Hdn, Hcups.
  assert (Hg : negb (truthy (get q "ADFilterGroup")
                     && negb (py_in_list (get q "ADFilterGroup") groups)) = true).
  { destruct (truthy (get q "ADFilterGroup")); [|reflexivity]. now rewrite Hgroup. }
  destruct (given fk && truthy (get_arg q fk)).
  - rewrite Hfilter by reflexivity. now rewrite Hg.
  - now rewrite Hg.
Qed.


(** ** Further properties of the inspector and of the prompt *)

(** X4: when [lpstat] exits with a non-zero status or prints nothing, no
    queue is reported as installed; the failure, and only the failure, is
    logged as "No current print queues found". *)
Theorem mapped_queues_nothing_found st w p
    (Hspawn : spawn (world st) lpstat_argv = (w, Some p))
    (Hnothing : returncode p <> 0%Z \/ stdout p = "") :
  get_currently_mapped_queues st
  = (State w (trace st ++
              [Log "Gathering list of currently mappped queues";
               Exec lpstat_argv true]
              ++ (if (returncode p =? 0)%Z then []
                  else [Log "No current print queues found"])),
     Ret []).
Proof.
  unfold get_currently_mapped_queues.
  unfold try_except, Logger_log, check_output, emit, bind, ret, raise, Popen. simpl.
  rewrite Hspawn. simpl.
  destruct (Z.eqb_spec (returncode p) 0) as [Hz|Hnz]; simpl.
  - destruct Hnothing as [Hrc|Hout]; [now destruct Hrc|]. rewrite Hout. simpl.
    now rewrite <- !app_assoc.
  - now rewrite <- !app_assoc.
Qed.

(** X5: whatever the dialog prints, unless it is exactly the line [Cancel],
    is read as a choice: the second line is logged and returned, and an
    answer of fewer than two lines raises [IndexError]. *)
Theorem prompt_queue_selection items st w rc out
    (Hspawn : spawn (world st) (dropdown_argv items) = (w, Some (Completed rc out)))
    (Hout : out <> "Cancel" +:+ String PyStr.LF "") :
  (forall sel, PyStr.splitlines out !! 1%nat = Some sel ->
     prompt_queue (PStr <$> items) st
     = (State w (trace st ++
                 [Log "Prompting user to select desired queue";
                  Exec (dropdown_argv items) true;
                  Log ("User selected queue " +:+ sel)]),
        Ret (Some sel))) /\
  (PyStr.splitlines out !! 1%nat = None ->
     prompt_queue (PStr <$> items) st
     = (State w (trace st ++
                 [Log "Prompting user to select desired queue";
                  Exec (dropdown_argv items) true]),
        Raise IndexError)).
Proof.
  assert (Hrun : prompt_queue (PStr <$> items) st
                 = (selected_queue <- getidx (PyStr.splitlines out) 1 ;;
                    Logger_log ("User selected queue " +:+ selected_queue) ;;;
                    ret (Some selected_queue))
                     (State w (trace st ++
                        [Log "Prompting user to select desired queue";
                         Exec (dropdown_argv items) true]))).
  { unfold prompt_queue, communicate.
    unfold bind at 1. unfold Logger_log at 1, emit at 1.
    unfold bind at 1. rewrite strs_strings.
    unfold bind at 1. unfold Popen. cbn [world trace]. rewrite Hspawn.
    unfold bind at 1. unfold ret at 1. cbn [stdout].
    apply String.eqb_neq in Hout. rewrite Hout. cbn [negb].
    now rewrite <- app_assoc. }
  rewrite Hrun. split.
  - intros sel Hsel. unfold getidx, bind, ret, Logger_log, emit. rewrite Hsel. simpl.
    now rewrite <- app_assoc.
  - intros Hnone. unfold getidx, bind, raise. now rewrite Hnone.
Qed.



(** ** Further properties of the group resolver *)

Lemma bind_log {B} (message : string) (k : unit -> M B) st :
  bind (Logger_log message) k st
  = k tt (State (world st) (trace st ++ [Log message])).
Proof. reflexivity. Qed.

Lemma try_except_Ret {A} (body : M A) handler st st' a :
  body st = (st', Ret a) -> try_except body handler st = (st', Ret a).
Proof. intros E. unfold try_except. now rewrite E. Qed.

Lemma check_output_result argv st w out :
  spawn (world st) argv = (w, Some (Completed 0 out)) ->
  check_output argv st = (State w (trace st ++ [Exec argv true]), Ret out).
Proof.
  intros E. unfold check_output.
  now rewrite (bind_Ret _ _ _ _ _ (Popen_launched _ _ _ _ E)).
Qed.

Lemma has_kerberos_ticket_result st w rc out :
  spawn (world st) klist_argv = (w, Some (Completed rc out)) ->
  has_kerberos_ticket st
  = (State w (trace st ++ [Exec klist_argv true]), Ret (rc =? 0)%Z).
Proof.
  intros E. unfold has_kerberos_ticket, subprocess_call.
  change ["klist"; "-s"] with klist_argv.
  unfold bind at 1. now rewrite (bind_Ret _ _ _ _ _ (Popen_launched _ _ _ _ E)).
Qed.

Lemma labelled_line_has_value (label a : string) st :
  label = "dn: " \/ label = "cn: " ->
  PyStr.startswith a label = true ->
  getidx (PyStr.split_on ":" a) 1 st
  = (st, Ret (nth 1 (PyStr.split_on ":" a) "")).
Proof.
  intros Hlabel E. apply getidx_second. unfold PyStr.startswith in E.
  destruct Hlabel as [-> | ->];
    apply prefix_cons_inv in E as (s1 & -> & E);
    apply prefix_cons_inv in E as (s2 & -> & E);
    apply prefix_cons_inv in E as (s3 & -> & E);
    apply prefix_cons_inv in E as (rest & -> & _);
    unfold PyStr.split_on; simpl;
    destruct (split_on_from_cons ":" (PyStr.snoc "" " ") rest) as (x & l & ->);
    simpl; lia.
Qed.

Lemma find_user_dn_first_dn dn st :
  find_user_dn dn "" st = (st, Ret (first_dn dn)).
Proof.
  induction dn as [|a dn IH]; simpl; [reflexivity|].
  destruct (PyStr.startswith a "dn: ") eqn:E; [|exact IH].
  unfold bind. rewrite (labelled_line_has_value "dn: ") by auto. reflexivity.
Qed.

Lemma cn_loop lines acc st :
  for_each lines
    (fun attribute user_groups =>
       if PyStr.startswith attribute "cn: " then
         field <- getidx (PyStr.split_on ":" attribute) 1 ;;
         ret (user_groups ++ [PyStr.strip field])
       else ret user_groups)
    acc st
  = (st, Ret (acc ++ cn_values lines)).
Proof.
  revert acc. induction lines as [|a lines IH]; intros acc; simpl.
  - unfold ret, cn_values. simpl. now rewrite app_nil_r.
  - unfold bind at 1. unfold cn_values. rewrite filter_cons.
    destruct (PyStr.startswith a "cn: ") eqn:E.
    + unfold bind at 1. rewrite (labelled_line_has_value "cn: ") by auto.
      unfold ret at 1. rewrite IH. unfold cn_values.
      destruct (decide _) as [_|n]; [|now destruct n].
      rewrite fmap_cons. unfold field_value at 2. now rewrite <- app_assoc.
    + unfold ret at 1. rewrite IH. unfold cn_values.
      destruct (decide _) as [Habs|_]; [discriminate Habs|reflexivity].
Qed.

(** X7: with a ticket and both searches succeeding, the resolver returns the
    values of the [cn: ] lines of the second answer, in order, each being the
    text between the first and the second colon of its line; the second
    search asks for the members of the first [dn: ] line of the first answer,
    or of the empty name when the user was not found.  It cannot fail on the
    shape of a line. *)
Theorem user_ldap_groups_returns_cn_values u st w1 out1 w2 out2 w3 out3
    (Hklist : spawn (world st) klist_argv = (w1, Some (Completed 0 out1)))
    (Husers : spawn w1 (user_search_argv u) = (w2, Some (Completed 0 out2)))
    (Hgroups : spawn w2 (ldapsearch_argv
                           (group_search_filter (first_dn (PyStr.splitlines out2))) "cn")
               = (w3, Some (Completed 0 out3))) :
  user_ldap_groups (Some u) st
  = (State w3 (trace st ++
               [Log "Generating list of user's AD groups";
                Exec klist_argv true;
                Exec (user_search_argv u) true;
                Exec (ldapsearch_argv
                        (group_search_filter (first_dn (PyStr.splitlines out2))) "cn")
                     true]),
     Ret (cn_values (PyStr.splitlines out3))).
Proof.
  unfold user_ldap_groups. rewrite bind_log. cbv beta.
  rewrite (bind_Ret _ _ _ _ _
             (has_kerberos_ticket_result
                (State (world st) (trace st ++ [Log "Generating list of user's AD groups"]))
                _ _ _ Hklist)).
  cbv beta. cbn [world trace].
  change (0 =? 0)%Z with true. cbn [negb].
  assert (Hbody :
    (name <- ret u ;;
     out <- check_output
              (ldapsearch_argv
                 ("(&(objectCategory=Person)(objectClass=User)(sAMAccountName="
                    +:+ name +:+ "))") "dn") ;;
     ret (PyStr.splitlines out))
      (State w1 ((trace st ++ [Log "Generating list of user's AD groups"])
                 ++ [Exec klist_argv true]))
    = (State w2 (((trace st ++ [Log "Generating list of user's AD groups"])
                  ++ [Exec klist_argv true]) ++ [Exec (user_search_argv u) true]),
       Ret (PyStr.splitlines out2))).
  { unfold bind at 1. unfold ret at 1.
    change (ldapsearch_argv _ "dn") with (user_search_argv u).
    now rewrite (bind_Ret _ _ _ _ _
                   (check_output_result _
                      (State w1 ((trace st ++ [Log "Generating list of user's AD groups"])
                                 ++ [Exec klist_argv true])) _ _ Husers)). }
  rewrite (bind_Ret _ _ _ _ _ (try_except_Ret _ _ _ _ _ Hbody)). cbv beta.
  rewrite (bind_Ret _ _ _ _ _ (find_user_dn_first_dn _ _)). cbv beta.
  assert (Hf : (if negb (PyStr.is_empty ldap_group_name_format)
                then "(&" +:+ ("(member:1.2.840.113556.1.4.1941:="
                               +:+ first_dn (PyStr.splitlines out2) +:+ ")")
                       +:+ "(cn=" +:+ ldap_group_name_format +:+ "))"
                else "(member:1.2.840.113556.1.4.1941:="
                       +:+ first_dn (PyStr.splitlines out2) +:+ ")")
               = group_search_filter (first_dn (PyStr.splitlines out2))).
  { unfold group_search_filter. now destruct (PyStr.is_empty ldap_group_name_format). }
  cbv zeta. rewrite Hf.
  match goal with
  | |- bind _ _ ?s = _ =>
      rewrite (bind_Ret _ _ _ _ _ (check_output_result _ s _ _ Hgroups))
  end.
  cbv beta.
  rewrite cn_loop. cbn [world trace]. now rewrite <- !app_assoc.
Qed.

(** X8: with a ticket and no user name among the arguments, the resolver
    raises [TypeError] while it builds the first search, before any search is
    launched; the handler of the [try] does not catch it. *)
Theorem user_ldap_groups_without_username st w out
    (Hklist : spawn (world st) klist_argv = (w, Some (Completed 0 out))) :
  user_ldap_groups None st
  = (State w (trace st ++
              [Log "Generating list of user's AD groups"; Exec klist_argv true]),
     Raise TypeError).
Proof.
  unfold user_ldap_groups, has_kerberos_ticket, subprocess_call.
  unfold try_except, bind, ret, raise, Logger_log, emit, Popen. simpl.
  change ["klist"; "-s"] with klist_argv. rewrite Hklist. simpl.
  now rewrite <- !app_assoc.
Qed.


(** ** Further properties of the queue installer *)








(** X11: a definition must carry every key the installer reads.  For a queue
    on the generic driver, a missing Location, URI or Options key raises
    [KeyError] after the driver has been logged and before anything is
    launched. *)
Theorem add_queue_missing_key name q n st
    (Hq : QUEUE_DEFINITIONS !! name = Some q)
    (Hdrv : q !! "Driver" = Some PNone)
    (Hn : q !! "DisplayName" = Some (PStr n)) :
  (q !! "Location" = None ->
   add_queue name st
   = (State (world st) (trace st ++ [Log (n +:+ " uses a generic driver")]),
      Raise (KeyError "Location"))) /\
  (forall l, q !! "Location" = Some l -> q !! "URI" = None ->
   add_queue name st
   = (State (world st) (trace st ++ [Log (n +:+ " uses a generic driver")]),
      Raise (KeyError "URI"))) /\
  (forall l u, q !! "Location" = Some l -> q !! "URI" = Some u ->
   q !! "Options" = None ->
   add_queue name st
   = (State (world st) (trace st ++ [Log (n +:+ " uses a generic driver")]),
      Raise (KeyError "Options"))).
Proof.
  repeat split.
  - intros Hl. unfold add_queue, getitem, as_str, bind, ret, raise, Logger_log, emit.
    rewrite Hq. cbv beta iota. now rewrite Hdrv, Hn, Hl.
  - intros l Hl Hu. unfold add_queue, getitem, as_str, bind, ret, raise, Logger_log, emit.
    rewrite Hq. cbv beta iota. now rewrite Hdrv, Hn, Hl, Hu.
  - intros l u Hl Hu Ho.
    unfold add_queue, getitem, as_str, bind, ret, raise, Logger_log, emit.
    rewrite Hq. cbv beta iota. now rewrite Hdrv, Hn, Hl, Hu, Ho.
Qed.

(** X12: a queue with a Driver needs its DriverTrigger even when the driver
    is installed: the trigger is read before the driver file is looked for,
    and a definition without the key raises [KeyError] with nothing
    launched. *)
Theorem add_queue_missing_driver_trigger name q n drv st
    (Hq : QUEUE_DEFINITIONS !! name = Some q)
    (Hdrv : q !! "Driver" = Some (PStr drv))
    (Hset : drv <> "")
    (Hn : q !! "DisplayName" = Some (PStr n))
    (Ht : q !! "DriverTrigger" = None) :
  add_queue name st
  = (State (world st)
       (trace st ++ [Log ("Queue " +:+ n +:+ " requires a vendor driver")]),
     Raise (KeyError "DriverTrigger")).
Proof.
  unfold add_queue, getitem, as_str, bind, ret, raise, Logger_log, emit.
  rewrite Hq. cbv beta iota. rewrite Hdrv, Hn, Ht.
  destruct drv; [now destruct Hset|]. reflexivity.
Qed.


(** ** Further properties of the workflow *)

(** X13: a pre-selected DisplayName that is in the eligible list goes
    straight to [add_queue], in the state the eligibility filter left: the
    dialog tool is not checked and no prompt is shown.  [add_queue] looks the
    definition up under that DisplayName, so when the catalog stores it under
    another key the run ends with [KeyError] and nothing is registered. *)
Theorem valid_preselection_goes_to_add_queue args p groups mapped available
    st st1 st2 st3
    (Hpre : preselected_queue args = Some p)
    (Hp : p <> "")
    (Hgroups : user_ldap_groups (jamf_user args) st = (st1, Ret groups))
    (Hmapped : get_currently_mapped_queues st1 = (st2, Ret mapped))
    (Hlist : build_printer_queue_list mapped (filter_key args) (filter_value args)
               groups st2 = (st3, Ret available))
    (Hin : PStr p ∈ available) :
  main args st = add_queue p st3 /\
  (QUEUE_DEFINITIONS !! p = None -> main args st = (st3, Raise (KeyError p))).
Proof.
  assert (Hmain : main args st = add_queue p st3).
  { unfold main.
    rewrite (bind_Ret _ _ _ _ _ Hgroups), (bind_Ret _ _ _ _ _ Hmapped),
      (bind_Ret _ _ _ _ _ Hlist), Hpre.
    assert (Hgiven : given (Some p) = true) by (destruct p; [now destruct Hp|reflexivity]).
    rewrite Hgiven, (bool_decide_eq_true_2 _ Hin).
    unfold bind at 1. unfold ret at 1. now rewrite Hgiven. }
  split; [exact Hmain|]. intros Hnone. rewrite Hmain.
  unfold add_queue, getitem. unfold bind at 1. now rewrite Hnone.
Qed.

(** X14: the answer of the prompt is not compared with the list that was
    offered: whatever non-empty second line the dialog prints is handed to
    [add_queue], and an empty one ends the run with nothing installed. *)
Theorem prompt_answer_goes_to_add_queue args groups mapped items st st1 st2 st3
    w rc out sel
    (Hpre : given (preselected_queue args) = false)
    (Hgroups : user_ldap_groups (jamf_user args) st = (st1, Ret groups))
    (Hmapped : get_currently_mapped_queues st1 = (st2, Ret mapped))
    (Hlist : build_printer_queue_list mapped (filter_key args) (filter_value args)
               groups st2 = (st3, Ret (PStr <$> items)))
    (Hthere : path_exists (world st3) CDPATH = true)
    (Hprompt : spawn (world st3) (dropdown_argv items) = (w, Some (Completed rc out)))
    (Hout : out <> "Cancel" +:+ String PyStr.LF "")
    (Hsel : PyStr.splitlines out !! 1%nat = Some sel) :
  (sel <> "" ->
   main args st
   = add_queue sel
       (State w (trace st3 ++
                 [Log "Prompting user to select desired queue";
                  Exec (dropdown_argv items) true;
                  Log ("User selected queue " +:+ sel)]))) /\
  (sel = "" ->
   main args st
   = (State w (trace st3 ++
               [Log "Prompting user to select desired queue";
                Exec (dropdown_argv items) true;
                Log "User selected queue "]),
      Ret tt)).
Proof.
  assert (Hrun : main args st
                 = (if given (Some sel) then add_queue sel else ret tt)
                     (State w (trace st3 ++
                        [Log "Prompting user to select desired queue";
                         Exec (dropdown_argv items) true;
                         Log ("User selected queue " +:+ sel)]))).
  { unfold main.
    rewrite (bind_Ret _ _ _ _ _ Hgroups), (bind_Ret _ _ _ _ _ Hmapped),
      (bind_Ret _ _ _ _ _ Hlist), Hpre.
    unfold check_for_cocoadialog, os_path_exists, prompt_queue, communicate.
    unfold bind at 1. unfold bind at 1. unfold bind at 1. rewrite Hthere.
    cbn [negb]. unfold ret at 1 2. cbn [negb]. unfold bind at 1. unfold ret at 1.
    unfold bind at 1. unfold Logger_log at 1, emit at 1.
    unfold bind at 1. rewrite strs_strings.
    unfold bind at 1. unfold Popen. cbn [world trace]. rewrite Hprompt.
    unfold bind at 1. unfold ret at 1. cbn [stdout].
    apply String.eqb_neq in Hout. rewrite Hout. cbn [negb].
    unfold bind at 1. unfold getidx. rewrite Hsel. unfold ret at 1.
    unfold bind at 1. unfold Logger_log, emit. unfold ret at 1.
    cbn [world trace]. rewrite <- !app_assoc. cbn [app].
    destruct (given (Some sel)); reflexivity. }
  rewrite Hrun. split.
  - intros Hne. destruct sel; [now destruct Hne|reflexivity].
  - intros ->. reflexivity.
Qed.

(** X15: when the dialog tool is on disk nothing is run and the check
    succeeds; when it is not, its install policy is run quietly, so that only
    the policy runner is launched, and its verdict is the result. *)
Theorem check_for_cocoadialog_behaviour st :
  (path_exists (world st) CDPATH = true ->
   check_for_cocoadialog st = (st, Ret true)) /\
  (forall out,
     path_exists (world st) CDPATH = false ->
     policy_prints cocoaDialog_install_trigger out ->
     exists w',
       check_for_cocoadialog st
       = (State w' (trace st ++
                    Exec (jamf_argv cocoaDialog_install_trigger) true
                    :: (if PyStr.contains "No policies were found for the" out
                        then [Log ("Unable to run Jamf policy via trigger "
                                     +:+ cocoaDialog_install_trigger)]
                        else if PyStr.contains "Submitting log to" out
                             then [Log ("Successfully ran Jamf policy via trigger "
                                          +:+ cocoaDialog_install_trigger)]
                             else [])),
          Ret (if PyStr.contains "No policies were found for the" out then false
               else if PyStr.contains "Submitting log to" out then true
               else false))).
Proof.
  split.
  - intros Hthere. unfold check_for_cocoadialog, os_path_exists, bind, ret.
    now rewrite Hthere.
  - intros out Habsent Hpolicy.
    destruct (run_jamf_policy_result cocoaDialog_install_trigger true out st
                ltac:(discriminate) Hpolicy) as (w' & Hrun).
    exists w'. unfold check_for_cocoadialog, os_path_exists. unfold bind at 1.
    rewrite Habsent. cbn [negb]. rewrite Hrun. reflexivity.
Qed.

(** X16: when the dialog tool is missing and its install policy does not
    report a submission, the run is over: if the message box can be launched
    all the same, the generic error is shown and the script exits with status
    1; if it cannot, the launch raises [OSError] and the log line of
    [error_and_exit] is never written.  The prompt is not shown either way. *)
Theorem missing_dialog_tool_is_fatal args groups mapped available st st1 st2 st3
    w4 rc out w5 shown
    (Hpre : given (preselected_queue args) = false)
    (Hgroups : user_ldap_groups (jamf_user args) st = (st1, Ret groups))
    (Hmapped : get_currently_mapped_queues st1 = (st2, Ret mapped))
    (Hlist : build_printer_queue_list mapped (filter_key args) (filter_value args)
               groups st2 = (st3, Ret available))
    (Habsent : path_exists (world st3) CDPATH = false)
    (Hpolicy : spawn (world st3) (jamf_argv cocoaDialog_install_trigger)
               = (w4, Some (Completed rc out)))
    (Hfailed : PyStr.contains "No policies were found for the" out = true
               \/ PyStr.contains "Submitting log to" out = false)
    (Hbox : spawn w4 (msgbox_argv msg_error_undefined "Error") = (w5, shown)) :
  main args st
  = (State w5
       (trace st3 ++
        Exec (jamf_argv cocoaDialog_install_trigger) true
        :: (if PyStr.contains "No policies were found for the" out
            then [Log ("Unable to run Jamf policy via trigger "
                         +:+ cocoaDialog_install_trigger)]
            else [])
        ++ match shown with
           | Some _ =>
               [Exec (msgbox_argv msg_error_undefined "Error") true;
                Log "An error occurred which requires exiting this program."]
           | None => [Exec (msgbox_argv msg_error_undefined "Error") false]
           end),
     Raise (match shown with
            | Some _ => SystemExit (Some 1%Z)
            | None => OSError
            end)).
Proof.
  unfold main.
  rewrite (bind_Ret _ _ _ _ _ Hgroups), (bind_Ret _ _ _ _ _ Hmapped),
    (bind_Ret _ _ _ _ _ Hlist), Hpre.
  unfold check_for_cocoadialog, os_path_exists, run_jamf_policy, error_and_exit,
    show_message, communicate.
  unfold bind, ret, Logger_log, emit, sys_exit, raise, Popen. rewrite Habsent.
  cbn [negb world trace]. rewrite Hpolicy. cbn [stdout world trace].
  destruct (PyStr.contains "No policies were found for the" out) eqn:Eno.
  - cbn [negb world trace]. rewrite Hbox.
    destruct shown; cbn [app world trace]; now rewrite <- !app_assoc.
  - destruct Hfailed as [Habs|Hsub]; [discriminate Habs|]. rewrite Hsub.
    cbn [negb world trace]. rewrite Hbox.
    destruct shown; cbn [app world trace]; now rewrite <- !app_assoc.
Qed.

(** X17: the progress bar is ended only after the policy runner has been
    launched: when the runner cannot be started, [OSError] leaves
    [run_jamf_policy] with the progress bar still on the screen. *)
Theorem progress_bar_left_when_runner_fails trigger st w1 p w2
    (Hbar : spawn (world st) progressbar_argv = (w1, Some p))
    (Hrunner : spawn w1 (jamf_argv trigger) = (w2, None)) :
  run_jamf_policy trigger false st
  = (State w2 (trace st ++ [Exec progressbar_argv true;
                            Exec (jamf_argv trigger) false]),
     Raise OSError) /\
  Terminate progressbar_argv ∉ [Exec progressbar_argv true;
                                Exec (jamf_argv trigger) false].
Proof.
  split.
  - unfold run_jamf_policy, bind, ret, Popen. cbn [negb]. rewrite Hbar.
    cbn [world trace]. rewrite Hrunner. now rewrite <- !app_assoc.
  - intros Hin. apply elem_of_cons in Hin as [Habs|Hin]; [discriminate Habs|].
    apply elem_of_cons in Hin as [Habs|Hin]; [discriminate Habs|]. inversion Hin.
Qed.


End Properties.

(** * The script on concrete machines *)

(** ** Eligibility *)

(** C1, counterexample to the claim as stated: two definitions share the
    DisplayName [P]; the one with CUPSName [x] is installed, and [P] is
    nevertheless in the list, put there by the other. *)
Lemma eligible_list_shared_name_counterexample :
  twin_catalog !! "a" = Some twin_a /\
  py_in_list (get twin_a "CUPSName") ["x"] = true /\
  @build_printer_queue_list quiet_host (sample_config twin_catalog)
     ["x"] None None [] (start quiet_host tt)
  = (start quiet_host tt, Ret [display_name twin_a]).
Proof. repeat split; vm_compute; reflexivity. Qed.

(** Scenario A of the specification: HP-BW is installed, HP-Color is not. *)
Lemma eligible_list_excludes_installed_witness :
  @build_printer_queue_list quiet_host (sample_config office_catalog)
     ["HP-BW"] None None [] (start quiet_host tt)
  = (start quiet_host tt, Ret [PStr "HP-Color"]) /\
  NoDup (display_name <$> @catalog_values (sample_config office_catalog)) /\
  display_name hp_bw ∉ [PStr "HP-Color"].
Proof.
  assert (Hret : @build_printer_queue_list quiet_host (sample_config office_catalog)
                   ["HP-BW"] None None [] (start quiet_host tt)
                 = (start quiet_host tt, Ret [PStr "HP-Color"])).
  { vm_compute. reflexivity. }
  assert (Hunique : NoDup (display_name <$> @catalog_values (sample_config office_catalog))).
  { refine (bool_decide_unpack _ _). vm_compute. exact I. }
  split; [exact Hret|]. split; [exact Hunique|].
  apply (@eligible_list_excludes_installed quiet_host (sample_config office_catalog)
           ["HP-BW"] None None [] _ _ _ Hret Hunique hp_bw).
  - refine (bool_decide_unpack _ _). vm_compute. exact I.
  - left. vm_compute. reflexivity.
Defined.

(** C5, counterexample to the claim as stated: the definition has the
    attribute [Location], with the empty string as its value; [x] is not a
    substring of it, and the definition is retained. *)
Lemma empty_attribute_counterexample :
  blank_location !! "Location" = Some (PStr "") /\
  PyStr.contains "x" "" = false /\
  @build_printer_queue_list quiet_host (sample_config blank_catalog)
     [] (Some "Location") (Some "x") [] (start quiet_host tt)
  = (start quiet_host tt, Ret [display_name blank_location]).
Proof. repeat split; vm_compute; reflexivity. Qed.

(** Filtering a campus on [Location]: the definition with an empty Location
    stays, and Lab stays because its Location contains the filter value. *)
Lemma attribute_filter_retention_witness :
  @build_printer_queue_list quiet_host (sample_config campus_catalog)
     [] (Some "Location") (Some "Building 1") [] (start quiet_host tt)
  = (start quiet_host tt, Ret [PStr "A"; PStr "Lab"]) /\
  NoDup (display_name <$> @catalog_values (sample_config campus_catalog)) /\
  (truthy (get blank_location "Location") = false ->
   display_name blank_location ∈ [PStr "A"; PStr "Lab"]) /\
  (display_name lab ∈ [PStr "A"; PStr "Lab"]
   <-> PyStr.contains "Building 1" "Building 1" = true).
Proof.
  assert (Hret : @build_printer_queue_list quiet_host (sample_config campus_catalog)
                   [] (Some "Location") (Some "Building 1") [] (start quiet_host tt)
                 = (start quiet_host tt, Ret [PStr "A"; PStr "Lab"])).
  { vm_compute. reflexivity. }
  assert (Hunique : NoDup (display_name <$> @catalog_values (sample_config campus_catalog))).
  { refine (bool_decide_unpack _ _). vm_compute. exact I. }
  split; [exact Hret|]. split; [exact Hunique|]. split.
  - refine (proj1 (@attribute_filter_retention quiet_host (sample_config campus_catalog)
                     [] "Location" "Building 1" [] _ _ _ blank_location
                     Hret _ Hunique _ _ _ _)).
    + discriminate.
    + refine (bool_decide_unpack _ _). vm_compute. exact I.
    + vm_compute. reflexivity.
    + vm_compute. reflexivity.
    + vm_compute. discriminate.
  - refine (proj2 (@attribute_filter_retention quiet_host (sample_config campus_catalog)
                     [] "Location" "Building 1" [] _ _ _ lab Hret _ Hunique _ _ _ _)
              "Building 1" _ _).
    + discriminate.
    + refine (bool_decide_unpack _ _). vm_compute. exact I.
    + vm_compute. reflexivity.
    + vm_compute. reflexivity.
    + vm_compute. discriminate.
    + vm_compute. reflexivity.
    + discriminate.
Defined.

(** The office with nothing installed, and with everything installed. *)
Lemma eligible_list_sorted_or_terminal_witness :
  Sorted py_le_prop [PStr "HP-BW"; PStr "HP-Color"] /\
  @build_printer_queue_list quiet_host (sample_config office_catalog)
     ["HP-BW"; "HP-Color"] None None [] (start quiet_host tt)
  = (@State quiet_host tt [Log "No currently-unmapped queues are available";
               Exec (@msgbox_argv (sample_config office_catalog)
                       "No print queues are available." "Printer Installer") true],
     Raise (SystemExit None)).
Proof.
  split.
  - refine (proj1 (proj1 (@eligible_list_sorted_or_terminal quiet_host
                            (sample_config office_catalog) [] None None []
                            (start quiet_host tt))
                     (start quiet_host tt) [PStr "HP-BW"; PStr "HP-Color"] _)).
    vm_compute. reflexivity.
  - refine (proj2 (proj2 (@eligible_list_sorted_or_terminal quiet_host
                            (sample_config office_catalog) ["HP-BW"; "HP-Color"]
                            None None [] (start quiet_host tt)) _)
              tt (Completed 0 "") _).
    + vm_compute. reflexivity.
    + vm_compute. reflexivity.
Defined.

(** ** The policy runner *)

(** C2, counterexample to the claim as stated: the text contains the
    submission marker, and the result is false, because it contains the
    no-policy-found marker as well. *)
Lemma run_jamf_policy_both_markers_counterexample :
  PyStr.contains "Submitting log to" both_markers = true /\
  (@run_jamf_policy both_markers_host office "InstallHPDriver" false
     (start both_markers_host tt)).2 = Ret false.
Proof. split; vm_compute; reflexivity. Qed.

(** A policy that ran: the text holds the submission marker only. *)
Lemma run_jamf_policy_classification_witness :
  @policy_prints submitted_host "InstallHPDriver" submitted_text /\
  PyStr.contains "No policies were found for the" submitted_text = false /\
  PyStr.contains "Submitting log to" submitted_text = true /\
  (@run_jamf_policy submitted_host office "InstallHPDriver" false
     (start submitted_host tt)).2 = Ret true.
Proof.
  assert (Hdialog : false = false -> @dialog_available submitted_host office).
  { intros _ w args. exists tt, (Completed 0 ""). reflexivity. }
  assert (Hpolicy : @policy_prints submitted_host "InstallHPDriver" submitted_text).
  { intros w. exists tt, 0%Z. reflexivity. }
  split; [exact Hpolicy|].
  split; [vm_compute; reflexivity|]. split; [vm_compute; reflexivity|].
  apply (proj1 (proj2 (@run_jamf_policy_classification submitted_host office
                         "InstallHPDriver" false submitted_text
                         (start submitted_host tt) Hdialog Hpolicy))).
  - vm_compute. reflexivity.
  - vm_compute. reflexivity.
Defined.

(** ** Driver resolution *)

(** C3, counterexample to the claim as stated: the driver of HP-Color is
    set and absent, the runner prints the no-policy-found marker, and the
    exit status is 0. *)
Lemma driver_failure_exit_status_counterexample :
  hp_color !! "Driver" = Some (PStr "/opt/drv/x.ppd") /\
  @path_exists not_found_host tt "/opt/drv/x.ppd" = false /\
  PyStr.contains "No policies were found for the" not_found_text = true /\
  exit_status (@add_queue not_found_host office "HP-Color" (start not_found_host tt)).2
  = 0%Z.
Proof. repeat split; vm_compute; reflexivity. Qed.

(** Scenario C of the specification: no policy answers the driver trigger. *)
Lemma driver_policy_not_found_quits_witness :
  @path_exists not_found_host tt "/opt/drv/x.ppd" = false /\
  PyStr.contains "No policies were found for the" not_found_text = true /\
  (@add_queue not_found_host office "HP-Color" (start not_found_host tt)).2
  = Raise (SystemExit None) /\
  registration_attempted
    (trace (@add_queue not_found_host office "HP-Color" (start not_found_host tt)).1)
  = false.
Proof.
  assert (Hdialog : @dialog_available not_found_host office).
  { intros w args. exists tt, (Completed 0 ""). reflexivity. }
  assert (Hpolicy : @policy_prints not_found_host "InstallHPDriver" not_found_text).
  { intros w. exists tt, 0%Z. reflexivity. }
  assert (Habsent : @path_exists not_found_host tt "/opt/drv/x.ppd" = false).
  { reflexivity. }
  assert (Hmarker : PyStr.contains "No policies were found for the" not_found_text = true).
  { vm_compute. reflexivity. }
  split; [exact Habsent|]. split; [exact Hmarker|].
  destruct (@driver_policy_not_found_quits not_found_host office
              "HP-Color" hp_color "HP-Color" "/opt/drv/x.ppd" "InstallHPDriver"
              not_found_text (start not_found_host tt))
    as ((w & Hrun) & _ & Hreg).
  - vm_compute. reflexivity.
  - vm_compute. reflexivity.
  - vm_compute. reflexivity.
  - discriminate.
  - vm_compute. reflexivity.
  - exact Habsent.
  - exact Hdialog.
  - exact Hpolicy.
  - exact Hmarker.
  - rewrite Hrun. split; [reflexivity|]. exact Hreg.
Defined.

(** Scenario B of the specification: the runner prints the submission
    marker, and the queue is registered with the vendor driver path. *)
Example driver_installed_then_registered :
  (@add_queue submitted_host office "HP-Color" (start submitted_host tt)).2
  = Raise (SystemExit None) /\
  Exec ["/usr/sbin/lpadmin"; "-p"; "HP-Color"; "-L"; "Building 1"; "-E"; "-v";
        "lpd://print.example.com/color"; "-P"; "/opt/drv/x.ppd";
        "-o"; "Duplex=DuplexNoTumble"] true
  ∈ trace (@add_queue submitted_host office "HP-Color" (start submitted_host tt)).1.
Proof.
  split; [vm_compute; reflexivity|].
  refine (bool_decide_unpack _ _). vm_compute. exact I.
Qed.

(** ** Pre-selected queues *)

(** HP-Laser is asked for and is not in the catalog of the office. *)
Lemma invalid_preselection_is_fatal_witness :
  (PStr "HP-Laser" ∉ [PStr "HP-BW"; PStr "HP-Color"]) /\
  (@main plain_host office (preselect "HP-Laser") (start plain_host tt)).2
  = Raise (SystemExit (Some 1%Z)) /\
  PyStr.contains "HP-Laser" (render (@msg_error_preselected_queue office) "HP-Laser")
  = true.
Proof.
  assert (Hnot : PStr "HP-Laser" ∉ [PStr "HP-BW"; PStr "HP-Color"]).
  { refine (bool_decide_unpack _ _). vm_compute. exact I. }
  assert (Hdialog : @dialog_available plain_host office).
  { intros w args. exists tt, (Completed 0 ""). reflexivity. }
  split; [exact Hnot|].
  destruct (@invalid_preselection_is_fatal plain_host office
              (preselect "HP-Laser") "HP-Laser" [] [] [PStr "HP-BW"; PStr "HP-Color"]
              (start plain_host tt)
              (@State plain_host tt
                 [Log "Generating list of user's AD groups";
                  Exec ["klist"; "-s"] true;
                  Log "Kerberos ticket not found. AD group filtering disabled."])
              (@State plain_host tt
                 [Log "Generating list of user's AD groups";
                  Exec ["klist"; "-s"] true;
                  Log "Kerberos ticket not found. AD group filtering disabled.";
                  Log "Gathering list of currently mappped queues";
                  Exec ["/usr/bin/lpstat"; "-p"] true])
              (@State plain_host tt
                 [Log "Generating list of user's AD groups";
                  Exec ["klist"; "-s"] true;
                  Log "Kerberos ticket not found. AD group filtering disabled.";
                  Log "Gathering list of currently mappped queues";
                  Exec ["/usr/bin/lpstat"; "-p"] true]))
    as ((w & Hrun) & _ & Hnames & _).
  - reflexivity.
  - discriminate.
  - vm_compute. reflexivity.
  - vm_compute. reflexivity.
  - vm_compute. reflexivity.
  - exact Hnot.
  - reflexivity.
  - exact Hdialog.
  - rewrite Hrun. split; [reflexivity|exact Hnames].
Defined.

(** ** The installed-queue inspector *)

(** Two lines of [lpstat -p], each naming its queue in second position. *)
Lemma mapped_queues_second_tokens_witness :
  lpstat_text <> "" /\
  (@get_currently_mapped_queues listed_host (start listed_host tt)).2
  = Ret ["HP-BW"; "Lab"].
Proof.
  assert (Hout : lpstat_text <> "") by discriminate.
  split; [exact Hout|].
  refine (proj1 (@mapped_queues_second_tokens listed_host (start listed_host tt)
                   tt lpstat_text _ Hout) _).
  - vm_compute. reflexivity.
  - apply Forall_forall. refine (bool_decide_unpack _ _). vm_compute. exact I.
Defined.

(** A continuation line with a single word, as [lpstat -p] prints below a
    paused queue, makes the inspector fail. *)
Example mapped_queues_paused_line :
  (@get_currently_mapped_queues paused_host (start paused_host tt)).2
  = Raise IndexError.
Proof. vm_compute. reflexivity. Qed.

(** ** Failures that nothing catches *)

(** C7, the code at the failing input: with a ticket and a user that is
    found, a group search that exits with status 1 raises
    [CalledProcessError] out of [user_ldap_groups]; no message is shown
    and the interpreter ends with status 1. *)
Theorem group_lookup_failure_escapes :
  (@user_ldap_groups directory_host office (Some "jdoe") (start directory_host tt)).2
  = Raise (CalledProcessError 1) /\
  message_shown
    (trace (@user_ldap_groups directory_host office (Some "jdoe")
              (start directory_host tt)).1) = false /\
  exit_status
    (@user_ldap_groups directory_host office (Some "jdoe") (start directory_host tt)).2
  = 1%Z.
Proof. repeat split; vm_compute; reflexivity. Qed.

(** C8, the code at the failing input: when [lpadmin] cannot be launched
    [add_queue] raises [OSError]; the mapping-error message is not shown. *)
Theorem registration_launch_failure_escapes :
  (@add_queue no_lpadmin_host office "HP-BW" (start no_lpadmin_host tt)).2
  = Raise OSError /\
  message_shown
    (trace (@add_queue no_lpadmin_host office "HP-BW" (start no_lpadmin_host tt)).1)
  = false.
Proof. split; vm_compute; reflexivity. Qed.

(** A registration command that exits with status 1 is still reported as a
    success. *)
Example registration_exit_status_ignored :
  (@main pick_host office no_arguments (start pick_host tt)).2
  = Raise (SystemExit None) /\
  Exec (@msgbox_argv office "The queue HP-BW was added." "Success!") true
  ∈ trace (@main pick_host office no_arguments (start pick_host tt)).1.
Proof.
  split; [vm_compute; reflexivity|].
  refine (bool_decide_unpack _ _). vm_compute. exact I.
Qed.

(** ** Exit status *)

(** C9, the code at the failing input: the group search fails, nothing
    catches the exception, and the interpreter ends with status 1 although
    [error_and_exit] never ran. *)
Theorem crash_exit_status_one :
  exit_status
    (@main directory_host office (preselect "HP-BW") (start directory_host tt)).2
  = 1%Z /\
  error_exit_logged
    (trace (@main directory_host office (preselect "HP-BW") (start directory_host tt)).1)
  = false.
Proof. split; vm_compute; reflexivity. Qed.

Example exit_status_after_installation :
  exit_status (@main pick_host office no_arguments (start pick_host tt)).2 = 0%Z.
Proof. vm_compute. reflexivity. Qed.

Example exit_status_after_cancellation :
  (@main cancel_host office no_arguments (start cancel_host tt)).2 = Ret tt /\
  exit_status (@main cancel_host office no_arguments (start cancel_host tt)).2 = 0%Z /\
  registration_attempted
    (trace (@main cancel_host office no_arguments (start cancel_host tt)).1) = false.
Proof. repeat split; vm_compute; reflexivity. Qed.

Example exit_status_without_eligible_queue :
  (@main full_host office no_arguments (start full_host tt)).2
  = Raise (SystemExit None) /\
  exit_status (@main full_host office no_arguments (start full_host tt)).2 = 0%Z.
Proof. split; vm_compute; reflexivity. Qed.

Example exit_status_after_invalid_preselection :
  exit_status (@main cancel_host office (preselect "HP-Laser") (start cancel_host tt)).2
  = 1%Z /\
  error_exit_logged
    (trace (@main cancel_host office (preselect "HP-Laser") (start cancel_host tt)).1)
  = true.
Proof. split; vm_compute; reflexivity. Qed.

(** * The further properties on concrete machines *)

(** The reserved queue is listed for a member of Print-Lab. *)
Lemma group_filter_retention_witness :
  @build_printer_queue_list quiet_host (sample_config restricted_catalog)
     [] None None ["Staff"; "Print-Lab"] (start quiet_host tt)
  = (start quiet_host tt, Ret [PStr "Open"; PStr "Reserved"]) /\
  (display_name reserved ∈ [PStr "Open"; PStr "Reserved"]
   <-> "Print-Lab" ∈ ["Staff"; "Print-Lab"]).
Proof.
  assert (Hret : @build_printer_queue_list quiet_host (sample_config restricted_catalog)
                   [] None None ["Staff"; "Print-Lab"] (start quiet_host tt)
                 = (start quiet_host tt, Ret [PStr "Open"; PStr "Reserved"])).
  { vm_compute. reflexivity. }
  split; [exact Hret|].
  apply (@group_filter_retention quiet_host (sample_config restricted_catalog)
           [] None None ["Staff"; "Print-Lab"] _ _ _ reserved "Print-Lab" Hret).
  - refine (bool_decide_unpack _ _). vm_compute. exact I.
  - refine (bool_decide_unpack _ _). vm_compute. exact I.
  - vm_compute. reflexivity.
  - vm_compute. reflexivity.
  - vm_compute. discriminate.
  - vm_compute. reflexivity.
  - discriminate.
Defined.

(** Without a group list the reserved queue is left out. *)
Example reserved_queue_without_groups :
  @build_printer_queue_list quiet_host (sample_config restricted_catalog)
     [] None None [] (start quiet_host tt)
  = (start quiet_host tt, Ret [PStr "Open"]).
Proof. vm_compute. reflexivity. Qed.

(** A filter key without a filter value on the campus. *)
Lemma missing_filter_value_raises_witness :
  get lab "Location" = PStr "Building 1" /\
  @build_printer_queue_list quiet_host (sample_config campus_catalog)
     [] (Some "Location") None [] (start quiet_host tt)
  = (start quiet_host tt, Raise TypeError).
Proof.
  split; [vm_compute; reflexivity|].
  apply (@missing_filter_value_raises quiet_host (sample_config campus_catalog)
           [] "Location" [] (start quiet_host tt) lab "Building 1").
  - discriminate.
  - refine (bool_decide_unpack _ _). vm_compute. exact I.
  - vm_compute. reflexivity.
  - vm_compute. reflexivity.
  - vm_compute. reflexivity.
  - discriminate.
Defined.

(** HP-Color is not installed and is listed. *)
Lemma eligible_list_complete_witness :
  @build_printer_queue_list quiet_host office ["HP-BW"] None None []
     (start quiet_host tt)
  = (start quiet_host tt, Ret [PStr "HP-Color"]) /\
  display_name hp_color ∈ [PStr "HP-Color"].
Proof.
  assert (Hret : @build_printer_queue_list quiet_host office ["HP-BW"] None None []
                   (start quiet_host tt)
                 = (start quiet_host tt, Ret [PStr "HP-Color"])).
  { vm_compute. reflexivity. }
  split; [exact Hret|].
  refine (proj1 (@eligible_list_complete quiet_host office ["HP-BW"] None None []
                   _ _ _ hp_color Hret _ _ _ _ _)).
  - refine (bool_decide_unpack _ _). vm_compute. exact I.
  - vm_compute. reflexivity.
  - vm_compute. reflexivity.
  - vm_compute. discriminate.
  - vm_compute. discriminate.
Defined.

(** [lpstat] fails: nothing is installed. *)
Lemma mapped_queues_nothing_found_witness :
  (@get_currently_mapped_queues no_queue_host (start no_queue_host tt)).2 = Ret [] /\
  Log "No current print queues found"
  ∈ trace (@get_currently_mapped_queues no_queue_host (start no_queue_host tt)).1.
Proof.
  rewrite (@mapped_queues_nothing_found no_queue_host (start no_queue_host tt)
             tt (Completed 1 "")).
  - split; [reflexivity|]. refine (bool_decide_unpack _ _). vm_compute. exact I.
  - vm_compute. reflexivity.
  - left. discriminate.
Defined.

(** The operator picks HP-BW. *)
Lemma prompt_queue_selection_witness :
  PyStr.splitlines (line "Add" +:+ line "HP-BW") !! 1%nat = Some "HP-BW" /\
  (@prompt_queue pick_host office [PStr "HP-BW"; PStr "HP-Color"] (start pick_host tt)).2
  = Ret (Some "HP-BW").
Proof.
  assert (Hsel : PyStr.splitlines (line "Add" +:+ line "HP-BW") !! 1%nat = Some "HP-BW").
  { vm_compute. reflexivity. }
  split; [exact Hsel|].
  refine (f_equal snd
            (proj1 (@prompt_queue_selection pick_host office ["HP-BW"; "HP-Color"]
                      (start pick_host tt) tt 0%Z (line "Add" +:+ line "HP-BW") _ _)
               "HP-BW" Hsel)).
  - vm_compute. reflexivity.
  - vm_compute. discriminate.
Defined.

(** A [Cancel] line followed by the highlighted item is read as a choice. *)
Example cancel_with_item_is_a_choice :
  (@prompt_queue (desk_host 0 (line "Cancel" +:+ line "HP-BW") "") office
     [PStr "HP-BW"; PStr "HP-Color"]
     (start (desk_host 0 (line "Cancel" +:+ line "HP-BW") "") tt)).2
  = Ret (Some "HP-BW").
Proof. vm_compute. reflexivity. Qed.


(** The groups of jdoe. *)
Lemma user_ldap_groups_returns_cn_values_witness :
  (@user_ldap_groups member_host office (Some "jdoe") (start member_host tt)).2
  = Ret ["Print-Lab"; "Staff"].
Proof.
  rewrite (@user_ldap_groups_returns_cn_values member_host office "jdoe"
             (start member_host tt) tt "" tt
             (line "dn: CN=jdoe,OU=Staff,DC=example,DC=com") tt groups_text).
  - vm_compute. reflexivity.
  - vm_compute. reflexivity.
  - vm_compute. reflexivity.
  - vm_compute. reflexivity.
Defined.

(** A colon inside a name cuts it short. *)
Example field_value_stops_at_colon :
  field_value "cn: Print: Lab" = "Print" /\ first_dn ["version: 1"] = "".
Proof. split; reflexivity. Qed.

(** No user name among the arguments, and a ticket. *)
Lemma user_ldap_groups_without_username_witness :
  (@user_ldap_groups quiet_host office None (start quiet_host tt)).2 = Raise TypeError.
Proof.
  rewrite (@user_ldap_groups_without_username quiet_host office (start quiet_host tt)
             tt "").
  - reflexivity.
  - vm_compute. reflexivity.
Defined.



(** A definition with a DisplayName and a null Driver only. *)
Lemma add_queue_missing_key_witness :
  bare !! "Location" = None /\
  @add_queue quiet_host (sample_config bare_catalog) "Bare" (start quiet_host tt)
  = (@State quiet_host tt [Log "Bare uses a generic driver"],
     Raise (KeyError "Location")).
Proof.
  assert (Hl : bare !! "Location" = None) by (vm_compute; reflexivity).
  split; [exact Hl|].
  refine (proj1 (@add_queue_missing_key quiet_host (sample_config bare_catalog)
                   "Bare" bare "Bare" (start quiet_host tt) _ _ _) Hl).
  - vm_compute. reflexivity.
  - vm_compute. reflexivity.
  - vm_compute. reflexivity.
Defined.

(** A definition with a Driver and no DriverTrigger, the driver being on
    disk. *)
Lemma add_queue_missing_driver_trigger_witness :
  @path_exists quiet_host tt "/opt/drv/x.ppd" = true /\
  @add_queue quiet_host (sample_config bare_catalog) "Untriggered" (start quiet_host tt)
  = (@State quiet_host tt [Log "Queue Untriggered requires a vendor driver"],
     Raise (KeyError "DriverTrigger")).
Proof.
  split; [reflexivity|].
  apply (@add_queue_missing_driver_trigger quiet_host (sample_config bare_catalog)
           "Untriggered" untriggered "Untriggered" "/opt/drv/x.ppd"
           (start quiet_host tt)).
  - vm_compute. reflexivity.
  - vm_compute. reflexivity.
  - discriminate.
  - vm_compute. reflexivity.
  - vm_compute. reflexivity.
Defined.

(** Front Desk is eligible, and is stored under the key [front]. *)
Lemma valid_preselection_goes_to_add_queue_witness :
  (PStr "Front Desk" ∈ [PStr "Front Desk"]) /\
  misfiled_catalog !! "Front Desk" = None /\
  (@main plain_host (sample_config misfiled_catalog) (preselect "Front Desk")
     (start plain_host tt)).2
  = Raise (KeyError "Front Desk") /\
  registration_attempted
    (trace (@main plain_host (sample_config misfiled_catalog) (preselect "Front Desk")
              (start plain_host tt)).1) = false.
Proof.
  assert (Hin : PStr "Front Desk" ∈ [PStr "Front Desk"]) by left.
  assert (Hnone : misfiled_catalog !! "Front Desk" = None) by (vm_compute; reflexivity).
  split; [exact Hin|]. split; [exact Hnone|].
  assert (Hrun :
    @main plain_host (sample_config misfiled_catalog) (preselect "Front Desk")
      (start plain_host tt)
    = (@State plain_host tt
         [Log "Generating list of user's AD groups";
          Exec ["klist"; "-s"] true;
          Log "Kerberos ticket not found. AD group filtering disabled.";
          Log "Gathering list of currently mappped queues";
          Exec ["/usr/bin/lpstat"; "-p"] true],
       Raise (KeyError "Front Desk"))).
  { refine (proj2 (@valid_preselection_goes_to_add_queue plain_host
                     (sample_config misfiled_catalog) (preselect "Front Desk")
                     "Front Desk" [] [] [PStr "Front Desk"]
                     (start plain_host tt)
                     (@State plain_host tt
                        [Log "Generating list of user's AD groups";
                         Exec ["klist"; "-s"] true;
                         Log "Kerberos ticket not found. AD group filtering disabled."])
                     (@State plain_host tt
                        [Log "Generating list of user's AD groups";
                         Exec ["klist"; "-s"] true;
                         Log "Kerberos ticket not found. AD group filtering disabled.";
                         Log "Gathering list of currently mappped queues";
                         Exec ["/usr/bin/lpstat"; "-p"] true])
                     _ _ _ _ _ _ Hin) Hnone).
    - reflexivity.
    - discriminate.
    - vm_compute. reflexivity.
    - vm_compute. reflexivity.
    - vm_compute. reflexivity. }
  rewrite Hrun. split; vm_compute; reflexivity.
Defined.

(** The operator picks HP-BW at the prompt. *)
Lemma prompt_answer_goes_to_add_queue_witness :
  @main pick_host office no_arguments (start pick_host tt)
  = @add_queue pick_host office "HP-BW"
      (@State pick_host tt
         [Log "Generating list of user's AD groups";
          Exec ["klist"; "-s"] true;
          Log "Kerberos ticket not found. AD group filtering disabled.";
          Log "Gathering list of currently mappped queues";
          Exec ["/usr/bin/lpstat"; "-p"] true;
          Log "Prompting user to select desired queue";
          Exec (@dropdown_argv office ["HP-BW"; "HP-Color"]) true;
          Log "User selected queue HP-BW"]).
Proof.
  refine (proj1 (@prompt_answer_goes_to_add_queue pick_host office no_arguments
                   [] [] ["HP-BW"; "HP-Color"]
                   (start pick_host tt)
                   (@State pick_host tt
                      [Log "Generating list of user's AD groups";
                       Exec ["klist"; "-s"] true;
                       Log "Kerberos ticket not found. AD group filtering disabled."])
                   (@State pick_host tt
                      [Log "Generating list of user's AD groups";
                       Exec ["klist"; "-s"] true;
                       Log "Kerberos ticket not found. AD group filtering disabled.";
                       Log "Gathering list of currently mappped queues";
                       Exec ["/usr/bin/lpstat"; "-p"] true])
                   (@State pick_host tt
                      [Log "Generating list of user's AD groups";
                       Exec ["klist"; "-s"] true;
                       Log "Kerberos ticket not found. AD group filtering disabled.";
                       Log "Gathering list of currently mappped queues";
                       Exec ["/usr/bin/lpstat"; "-p"] true])
                   tt 0%Z (line "Add" +:+ line "HP-BW") "HP-BW"
                   _ _ _ _ _ _ _ _) _).
  - reflexivity.
  - vm_compute. reflexivity.
  - vm_compute. reflexivity.
  - vm_compute. reflexivity.
  - reflexivity.
  - vm_compute. reflexivity.
  - vm_compute. discriminate.
  - vm_compute. reflexivity.
  - discriminate.
Defined.

(** The dialog tool is absent and its policy reports a submission. *)
Lemma check_for_cocoadialog_behaviour_witness :
  @path_exists submitted_host tt (@CDPATH office) = false /\
  (@check_for_cocoadialog submitted_host office (start submitted_host tt)).2 = Ret true /\
  message_shown
    (trace (@check_for_cocoadialog submitted_host office (start submitted_host tt)).1)
  = false.
Proof.
  assert (Habsent : @path_exists submitted_host tt (@CDPATH office) = false)
    by reflexivity.
  split; [exact Habsent|].
  destruct (proj2 (@check_for_cocoadialog_behaviour submitted_host office
                     (start submitted_host tt)) submitted_text Habsent)
    as (w' & Hrun).
  - intros w. exists tt, 0%Z. reflexivity.
  - rewrite Hrun. split; vm_compute; reflexivity.
Defined.

(** A fresh machine: the dialog tool is neither installed nor installable. *)
Lemma missing_dialog_tool_is_fatal_witness :
  (@main fresh_host office no_arguments (start fresh_host tt)).2 = Raise OSError /\
  error_exit_logged
    (trace (@main fresh_host office no_arguments (start fresh_host tt)).1) = false /\
  prompt_presented
    (trace (@main fresh_host office no_arguments (start fresh_host tt)).1) = false.
Proof.
  assert (Hrun := @missing_dialog_tool_is_fatal fresh_host office no_arguments
             [] [] [PStr "HP-BW"; PStr "HP-Color"]
             (start fresh_host tt)
             (@State fresh_host tt
                [Log "Generating list of user's AD groups";
                 Exec ["klist"; "-s"] true;
                 Log "Kerberos ticket not found. AD group filtering disabled."])
             (@State fresh_host tt
                [Log "Generating list of user's AD groups";
                 Exec ["klist"; "-s"] true;
                 Log "Kerberos ticket not found. AD group filtering disabled.";
                 Log "Gathering list of currently mappped queues";
                 Exec ["/usr/bin/lpstat"; "-p"] true])
             (@State fresh_host tt
                [Log "Generating list of user's AD groups";
                 Exec ["klist"; "-s"] true;
                 Log "Kerberos ticket not found. AD group filtering disabled.";
                 Log "Gathering list of currently mappped queues";
                 Exec ["/usr/bin/lpstat"; "-p"] true])
             tt 0%Z not_found_text tt None
             eq_refl
             ltac:(vm_compute; reflexivity)
             ltac:(vm_compute; reflexivity)
             ltac:(vm_compute; reflexivity)
             eq_refl
             ltac:(vm_compute; reflexivity)
             ltac:(left; vm_compute; reflexivity)
             ltac:(vm_compute; reflexivity)).
  rewrite Hrun. repeat split; vm_compute; reflexivity.
Defined.

(** The policy runner is not installed. *)
Lemma progress_bar_left_when_runner_fails_witness :
  (@run_jamf_policy no_jamf_host office "InstallHPDriver" false (start no_jamf_host tt)).2
  = Raise OSError /\
  (Terminate (@progressbar_argv office)
   ∉ trace (@run_jamf_policy no_jamf_host office "InstallHPDriver" false
              (start no_jamf_host tt)).1).
Proof.
  destruct (@progress_bar_left_when_runner_fails no_jamf_host office "InstallHPDriver"
              (start no_jamf_host tt) tt (Completed 0 "") tt) as [Hrun Hnot].
  - vm_compute. reflexivity.
  - vm_compute. reflexivity.
  - rewrite Hrun. split; [reflexivity|exact Hnot].
Defined.

(** No ticket: no group, and only [klist] is launched. *)
Lemma user_ldap_groups_without_ticket_witness :
  @user_ldap_groups plain_host office (Some "jdoe") (start plain_host tt)
  = (@State plain_host tt
       [Log "Generating list of user's AD groups";
        Exec ["klist"; "-s"] true;
        Log "Kerberos ticket not found. AD group filtering disabled."],
     Ret []).
Proof.
  apply (@user_ldap_groups_without_ticket plain_host office (Some "jdoe")
           (start plain_host tt) tt 1%Z "").
  - vm_compute. reflexivity.
  - discriminate.
Defined.

(** The directory answers the first search with status 254. *)
Lemma first_lookup_failure_reported_witness :
  (@user_ldap_groups denied_host office (Some "jdoe") (start denied_host tt)).2
  = Raise (SystemExit None) /\
  Log "Encountered an authentication error while searching ldap."
  ∈ trace (@user_ldap_groups denied_host office (Some "jdoe") (start denied_host tt)).1.
Proof.
  destruct (@first_lookup_failure_reported denied_host office "jdoe"
              (start denied_host tt) tt "" tt 254%Z "") as (w3 & Hrun).
  - vm_compute. reflexivity.
  - vm_compute. reflexivity.
  - discriminate.
  - intros w args. exists tt, (Completed 0 ""). reflexivity.
  - rewrite Hrun. split; [reflexivity|].
    refine (bool_decide_unpack _ _). vm_compute. exact I.
Defined.

(** HP-BW is registered by a command that exits with status 1. *)
Lemma registration_launched_reports_success_witness :
  (@add_queue pick_host office "HP-BW" (start pick_host tt)).2
  = Raise (SystemExit None) /\
  message_shown (trace (@add_queue pick_host office "HP-BW" (start pick_host tt)).1)
  = true.
Proof.
  destruct (@registration_launched_reports_success pick_host office "HP-BW" hp_bw
              "HP-BW" "" "lpd://print.example.com/bw" (start pick_host tt) tt 1%Z "")
    as (w' & Hrun).
  - vm_compute. reflexivity.
  - vm_compute. reflexivity.
  - vm_compute. reflexivity.
  - vm_compute. reflexivity.
  - vm_compute. reflexivity.
  - vm_compute. reflexivity.
  - vm_compute. reflexivity.
  - reflexivity.
  - intros w args. exists tt.
    change (@spawn pick_host w (@CDPATH office :: args))
      with (tt, if String.eqb (nth 0 args "") "dropdown"
                then Some (Completed 0 (line "Add" +:+ line "HP-BW"))
                else Some (Completed 0 "")).
    destruct (String.eqb (nth 0 args "") "dropdown"); eexists; reflexivity.
  - rewrite Hrun. split; vm_compute; reflexivity.
Defined.

(** The operator cancels. *)
Lemma cancellation_installs_nothing_witness :
  (@main cancel_host office no_arguments (start cancel_host tt)).2 = Ret tt /\
  exit_status (@main cancel_host office no_arguments (start cancel_host tt)).2 = 0%Z /\
  registration_attempted
    (trace (@main cancel_host office no_arguments (start cancel_host tt)).1) = false.
Proof.
  destruct (@cancellation_installs_nothing cancel_host office no_arguments
              [] [] ["HP-BW"; "HP-Color"]
              (start cancel_host tt)
              (@State cancel_host tt
                 [Log "Generating list of user's AD groups";
                  Exec ["klist"; "-s"] true;
                  Log "Kerberos ticket not found. AD group filtering disabled."])
              (@State cancel_host tt
                 [Log "Generating list of user's AD groups";
                  Exec ["klist"; "-s"] true;
                  Log "Kerberos ticket not found. AD group filtering disabled.";
                  Log "Gathering list of currently mappped queues";
                  Exec ["/usr/bin/lpstat"; "-p"] true])
              (@State cancel_host tt
                 [Log "Generating list of user's AD groups";
                  Exec ["klist"; "-s"] true;
                  Log "Kerberos ticket not found. AD group filtering disabled.";
                  Log "Gathering list of currently mappped queues";
                  Exec ["/usr/bin/lpstat"; "-p"] true])
              tt 0%Z) as (Hrun & Hstatus & _).
  - reflexivity.
  - vm_compute. reflexivity.
  - vm_compute. reflexivity.
  - vm_compute. reflexivity.
  - reflexivity.
  - vm_compute. reflexivity.
  - rewrite Hrun. split; [reflexivity|]. split; [reflexivity|].
    vm_compute. reflexivity.
Defined.
